(** * PhonixCast: a shallow embedding of [app/main.py]

    PhonixCast is a small command-line wrapper around [adb] and [scrcpy].
    This development embeds its functions in Rocq and proves the properties
    of the device listing, of the profile table, of the command line that is
    built for the mirroring tool and of the session flow.

    Conventions.
    - A Python [str] is a list of Unicode code points ([N]).
    - External effects ([shutil.which], [subprocess.run], [print]) go through
      a small state-and-exception monad: the state is the chronological log
      of the effects performed so far, the environment decides what the
      external tools answer, and an exception aborts the computation. *)

From Stdlib Require Import ZArith NArith List String Ascii Bool Lia.
From Stdlib Require Import DecimalString.
Import ListNotations.

Local Open Scope list_scope.

(* ===================================================================== *)
(** * Python strings                                                      *)
(* ===================================================================== *)

Module PyStr.

(** A code point. *)
Definition char := N.

(** A Python [str]. *)
Definition str := list char.

(** The [str] of an ASCII literal of the source. *)
Definition py (s : string) : str := map N_of_ascii (list_ascii_of_string s).

Fixpoint str_eqb (a b : str) : bool :=
  match a, b with
  | [], [] => true
  | x :: a', y :: b' => N.eqb x y && str_eqb a' b'
  | _, _ => false
  end.

(** [x in xs] for a list of strings. *)
Definition str_in (x : str) (xs : list str) : bool := existsb (str_eqb x) xs.

(** Truth value of a [str]: the empty string is false. *)
Definition str_truthy (s : str) : bool :=
  match s with [] => false | _ :: _ => true end.

(** [str.isspace] on one code point: the characters CPython's
    [_PyUnicode_IsWhitespace] accepts. *)
Definition isspace (c : char) : bool :=
  ((9 <=? c) && (c <=? 13) || (28 <=? c) && (c <=? 32)
   || (c =? 133) || (c =? 160) || (c =? 5760)
   || (8192 <=? c) && (c <=? 8202)
   || (c =? 8232) || (c =? 8233) || (c =? 8239) || (c =? 8287)
   || (c =? 12288))%N.

(** The line boundaries of [str.splitlines]: LF, VT, FF, CR, FS, GS, RS,
    NEL, LS and PS. *)
Definition is_linebreak (c : char) : bool :=
  ((10 <=? c) && (c <=? 13) || (28 <=? c) && (c <=? 30)
   || (c =? 133) || (c =? 8232) || (c =? 8233))%N.

Definition CR : char := 13%N.
Definition LF : char := 10%N.

(** [str.splitlines()] without [keepends].  [cur] holds the characters of
    the line being read, newest first.  CR LF counts as one boundary and a
    final boundary does not open an empty last line. *)
Fixpoint splitlines_from (cur : str) (s : str) : list str :=
  match s with
  | [] => match cur with [] => [] | _ :: _ => [rev cur] end
  | c :: rest =>
      if is_linebreak c then
        rev cur ::
          match rest with
          | c' :: rest' =>
              if (c =? CR)%N && (c' =? LF)%N
              then splitlines_from [] rest'
              else splitlines_from [] rest
          | [] => splitlines_from [] rest
          end
      else splitlines_from (c :: cur) rest
  end.

Definition splitlines (s : str) : list str := splitlines_from [] s.

(** [str.lstrip()], [str.rstrip()] and [str.strip()] with no argument. *)
Fixpoint lstrip (s : str) : str :=
  match s with
  | [] => []
  | c :: rest => if isspace c then lstrip rest else s
  end.

Definition rstrip (s : str) : str := rev (lstrip (rev s)).

Definition strip (s : str) : str := rstrip (lstrip s).

(** [str.split()] with no argument: the maximal runs of characters that
    are not whitespace.  [cur] holds the run being read, newest first. *)
Fixpoint split_from (cur : str) (s : str) : list str :=
  match s with
  | [] => match cur with [] => [] | _ :: _ => [rev cur] end
  | c :: rest =>
      if isspace c then
        match cur with
        | [] => split_from [] rest
        | _ :: _ => rev cur :: split_from [] rest
        end
      else split_from (c :: cur) rest
  end.

Definition split (s : str) : list str := split_from [] s.

(** [str(n)] for an [int]. *)
Definition str_of_int (n : Z) : str := py (NilZero.string_of_int (Z.to_int n)).

End PyStr.

Import PyStr.

(* ===================================================================== *)
(** * The profile table                                                   *)
(* ===================================================================== *)

Record Profile := mkProfile {
  name : str;
  bitrate : str;
  max_fps : Z;
  codec : str
}.

(** [PROFILES]: a dict literal, kept as an association list in insertion
    order (the order [PROFILES.values()] iterates in). *)
Definition PROFILES : list (str * Profile) :=
  [ (py "balanced", mkProfile (py "balanced") (py "8M") 60 (py "h264"));
    (py "low-latency", mkProfile (py "low-latency") (py "6M") 45 (py "h264"));
    (py "ultra-low-latency",
       mkProfile (py "ultra-low-latency") (py "4M") 30 (py "h264")) ].

(** [d.get(key)] on an association list with unique keys. *)
Fixpoint dict_get {V : Type} (d : list (str * V)) (key : str) : option V :=
  match d with
  | [] => None
  | (k, v) :: d' => if str_eqb k key then Some v else dict_get d' key
  end.

(** [d.keys()]. *)
Definition dict_keys {V : Type} (d : list (str * V)) : list str := map fst d.

(** [d.values()]. *)
Definition dict_values {V : Type} (d : list (str * V)) : list V := map snd d.

(* ===================================================================== *)
(** * Effects: processes, printing and exceptions                         *)
(* ===================================================================== *)

(** The exceptions the program can meet. *)
Inductive exn :=
| RuntimeError (msg : str)
| KeyError (key : str)
| AttributeError.

Inductive Stream := Stdout | Stderr.

(** What a child process did: its exit code and what it wrote. *)
Record Spawned := mkSpawned {
  exit_code : Z;
  out_text : str;
  err_text : str
}.

(** [subprocess.CompletedProcess]: the two streams are [None] unless the
    output was captured. *)
Record CompletedProcess := mkCompleted {
  returncode : Z;
  stdout : option str;
  stderr : option str
}.

(** One observable effect.  [Print] records the text handed to [print],
    without the newline that [print] adds. *)
Inductive Event :=
| Which (binary : str) (found : bool)
| Run (cmd : list str) (capture : bool) (result : CompletedProcess)
| Print (file : Stream) (text : str)
| PrintHelp.

(** The outside world: which binaries are on PATH, and what a command does
    when it is spawned after a given history. *)
Record Env := mkEnv {
  which : str -> bool;
  spawn : list Event -> list str -> Spawned
}.

Inductive outcome (A : Type) :=
| Returned (a : A)
| Raised (e : exn).

Arguments Returned {A} a.
Arguments Raised {A} e.

(** A computation reads the environment, extends the log and either
    returns or raises. *)
Definition M (A : Type) : Type := Env -> list Event -> list Event * outcome A.

Definition ret {A} (a : A) : M A := fun _ log => (log, Returned a).

Definition bind {A B} (c : M A) (k : A -> M B) : M B :=
  fun env log =>
    match c env log with
    | (log', Returned a) => k a env log'
    | (log', Raised e) => (log', Raised e)
    end.

Definition raise {A} (e : exn) : M A := fun _ log => (log, Raised e).

(** [try: c except RuntimeError as exc: h(str(exc))]; any other exception
    goes through. *)
Definition try_except_RuntimeError {A} (c : M A) (h : str -> M A) : M A :=
  fun env log =>
    match c env log with
    | (log', Raised (RuntimeError msg)) => h msg env log'
    | r => r
    end.

Definition emit (e : Event) : M unit := fun _ log => (log ++ [e], Returned tt).

Declare Scope py_scope.
Delimit Scope py_scope with py.
Notation "x <- c ;; k" := (bind c (fun x => k))
  (at level 61, c at next level, right associativity) : py_scope.
Notation "c ;; k" := (bind c (fun _ => k))
  (at level 61, right associativity) : py_scope.
Local Open Scope py_scope.

(** [print(text, file=...)].  The model covers the calls that return: a
    stream that cannot encode the text ([UnicodeEncodeError]) or cannot be
    written is outside it. *)
Definition print (file : Stream) (text : str) : M unit := emit (Print file text).

(** [shutil.which(binary) is not None]. *)
Definition shutil_which (binary : str) : M bool :=
  fun env log => let found := which env binary in
                 (log ++ [Which binary found], Returned found).

(** Reading a [str] attribute that may be [None] and calling a method on
    it. *)
Definition text_of (field : option str) : M str :=
  match field with
  | Some s => ret s
  | None => raise AttributeError
  end.

(** [d[key]]. *)
Definition subscript {V : Type} (d : list (str * V)) (key : str) : M V :=
  match dict_get d key with
  | Some v => ret v
  | None => raise (KeyError key)
  end.

(* ===================================================================== *)
(** * The program                                                         *)
(* ===================================================================== *)

(** The f-string of [_require_binary]. *)
Definition msg_missing (binary : str) : str :=
  py "No se encontr" ++ [243%N] ++ py " '" ++ binary ++ py "' en PATH.".

Definition _require_binary (binary : str) : M unit :=
  found <- shutil_which binary ;;
  if found then ret tt
  else raise (RuntimeError (msg_missing binary)).

(** [subprocess.run(cmd, check=False, text=True, capture_output=capture)]:
    a nonzero exit code is a result, not an exception.  The model covers
    the calls that return: a tool that cannot be started ([OSError]),
    output that cannot be decoded ([UnicodeDecodeError]) and an interrupt
    during the wait ([KeyboardInterrupt]) are outside it, so the theorems
    speak of the runs in which every call returns. *)
Definition run_command (cmd : list str) (capture : bool) : M CompletedProcess :=
  fun env log =>
    let child := spawn env log cmd in
    let result :=
      mkCompleted (exit_code child)
                  (if capture then Some (out_text child) else None)
                  (if capture then Some (err_text child) else None) in
    (log ++ [Run cmd capture result], Returned result).

(** The [CompletedProcess] of a run whose output was not captured. *)
Definition uncaptured (child : Spawned) : CompletedProcess :=
  mkCompleted (exit_code child) None None.

(** The body of the loop of [list_devices]. *)
Definition list_devices_step (devices : list str) (line : str) : list str :=
  let parts := split (strip line) in
  if (2 <=? List.length parts)%nat && str_eqb (nth 1 parts []) (py "device")
  then devices ++ [nth 0 parts []]
  else devices.

(** The loop of [list_devices] over the captured text. *)
Definition scan_devices (text : str) : list str :=
  fold_left list_devices_step (skipn 1 (splitlines text)) [].

Definition adb_devices_cmd : list str := [py "adb"; py "devices"].

(** The f-string of [list_devices], on the captured error text. *)
Definition msg_adb_failed (err : str) : str :=
  py "Fallo ejecutando adb devices: " ++ strip err.

Definition list_devices : M (list str) :=
  result <- run_command adb_devices_cmd true ;;
  if negb (returncode result =? 0)%Z then
    err <- text_of (stderr result) ;;
    raise (RuntimeError (msg_adb_failed err))
  else
    out <- text_of (stdout result) ;;
    ret (scan_devices out).

Definition stay_awake_cmd (device : str) (enabled : bool) : list str :=
  let value := if enabled then py "3" else py "0" in
  [py "adb"; py "-s"; device; py "shell"; py "settings"; py "put";
   py "global"; py "stay_on_while_plugged_in"; value].

Definition msg_stay_awake_failed : str :=
  py "No se pudo configurar stay_awake en el dispositivo.".

Definition set_stay_awake (device : str) (enabled : bool) : M unit :=
  result <- run_command (stay_awake_cmd device enabled) false ;;
  if negb (returncode result =? 0)%Z then
    raise (RuntimeError msg_stay_awake_failed)
  else ret tt.

(** [argparse.Namespace] as [build_parser] fills it.  The parser requires
    a subcommand among [profiles], [devices] and [start], and restricts
    [--profile] by [choices=PROFILES.keys()], so that [profile] is a key
    of [PROFILES] on every parsed [start] command line; [serial] and
    [max_size] are [None] when the option is absent. *)
Record Namespace := mkNamespace {
  command : str;
  profile : str;
  serial : option str;
  max_size : option Z;
  turn_screen_off : bool;
  stay_awake : bool;
  no_audio : bool
}.

(** Truth value of [args.max_size]: [None] and [0] are false. *)
Definition max_size_truthy (m : option Z) : bool :=
  match m with
  | Some n => negb (n =? 0)%Z
  | None => false
  end.

(** [args.serial or default]. *)
Definition serial_or (s : option str) (default : str) : str :=
  match s with
  | Some x => if str_truthy x then x else default
  | None => default
  end.

(** The command line for the mirroring tool (the [cmd] list of
    [start_stream] after its three conditional extensions). *)
Definition mirror_cmd (args : Namespace) (p : Profile) (device : str) : list str :=
  let cmd := [py "scrcpy"; py "--serial"; device;
              py "--video-bit-rate"; bitrate p;
              py "--max-fps"; str_of_int (max_fps p);
              py "--video-codec"; codec p] in
  let cmd := if max_size_truthy (max_size args)
             then cmd ++ [py "--max-size";
                          match max_size args with
                          | Some n => str_of_int n
                          | None => py "None"
                          end]
             else cmd in
  let cmd := if turn_screen_off args then cmd ++ [py "--turn-screen-off"] else cmd in
  let cmd := if no_audio args then cmd ++ [py "--no-audio"] else cmd in
  cmd.

Definition msg_no_devices : str :=
  py "No se encontraron dispositivos Android en modo 'device'.".

Definition msg_unavailable (device : str) : str :=
  py "El dispositivo solicitado (" ++ device ++ py ") no est" ++ [225%N]
  ++ py " disponible.".

Definition msg_starting (p : Profile) (device : str) : str :=
  py "Iniciando transmisi" ++ [243%N] ++ py "n con perfil '" ++ name p
  ++ py "' en dispositivo " ++ device ++ py "...".

Definition msg_restore_warning : str :=
  py "Advertencia: no se pudo restaurar stay_awake autom" ++ [225%N]
  ++ py "ticamente.".

(** Lines 81 to 117 of [start_stream]: the session on a resolved device. *)
Definition stream_on (args : Namespace) (p : Profile) (device : str) : M Z :=
  (if stay_awake args then set_stay_awake device true else ret tt) ;;
  let cmd := mirror_cmd args p device in
  print Stdout (msg_starting p device) ;;
  result <- run_command cmd false ;;
  (if stay_awake args
   then try_except_RuntimeError (set_stay_awake device false)
          (fun _ => print Stderr msg_restore_warning)
   else ret tt) ;;
  ret (returncode result).

Definition start_stream (args : Namespace) : M Z :=
  p <- subscript PROFILES (profile args) ;;
  devices <- list_devices ;;
  match devices with
  | [] => print Stderr msg_no_devices ;; ret 2%Z
  | first :: _ =>
      let device := serial_or (serial args) first in
      if negb (str_in device devices) then
        print Stderr (msg_unavailable device) ;; ret 2%Z
      else stream_on args p device
  end.

Definition profile_line (p : Profile) : str :=
  py "- " ++ name p ++ py ": bitrate=" ++ bitrate p ++ py ", max_fps="
  ++ str_of_int (max_fps p) ++ py ", codec=" ++ codec p.

(** [for x in xs: print(f x)]. *)
Fixpoint print_each {A : Type} (f : A -> str) (xs : list A) : M unit :=
  match xs with
  | [] => ret tt
  | x :: rest => print Stdout (f x) ;; print_each f rest
  end.

Definition print_profiles : M Z :=
  print Stdout (py "Perfiles disponibles:") ;;
  print_each profile_line (dict_values PROFILES) ;;
  ret 0%Z.

Definition msg_none_connected : str := py "Sin dispositivos conectados.".

Definition print_devices : M Z :=
  devices <- list_devices ;;
  match devices with
  | [] => print Stdout msg_none_connected ;; ret 0%Z
  | _ :: _ =>
      print Stdout (py "Dispositivos detectados:") ;;
      print_each (fun s => py "- " ++ s) devices ;;
      ret 0%Z
  end.

Definition when (b : bool) (c : M unit) : M unit := if b then c else ret tt.

(** The [except RuntimeError as exc] clause of [main]. *)
Definition report_error (msg : str) : M Z :=
  print Stderr (py "Error: " ++ msg) ;; ret 1%Z.

Definition main (args : Namespace) : M Z :=
  try_except_RuntimeError
    (when (str_in (command args) [py "devices"; py "start"])
          (_require_binary (py "adb")) ;;
     when (str_eqb (command args) (py "start"))
          (_require_binary (py "scrcpy")) ;;
     if str_eqb (command args) (py "profiles") then print_profiles
     else if str_eqb (command args) (py "devices") then print_devices
     else if str_eqb (command args) (py "start") then start_stream args
     else emit PrintHelp ;; ret 1%Z)
    report_error.

(** Running a computation from an empty log. *)
Definition run {A} (c : M A) (env : Env) : list Event * outcome A := c env [].

(* ===================================================================== *)
(** * The device listing as the specification words it                    *)
(* ===================================================================== *)

(** The whitespace-separated fields of a line. *)
Definition fields (line : str) : list str := split line.

(** A line names a ready device when it has at least two fields and the
    second one is the token [device]. *)
Definition ready_line (line : str) : bool :=
  match fields line with
  | _ :: state :: _ => str_eqb state (py "device")
  | _ => false
  end.

Definition first_field (line : str) : str :=
  match fields line with
  | serial :: _ => serial
  | [] => []
  end.

(** Skip the first line, keep the ready lines in their order and return
    the first field of each. *)
Definition listDevices_spec (text : str) : list str :=
  map first_field (filter ready_line (tl (splitlines text))).

(** The two device lines of the specification's example. *)
Definition line_ready : str := py "ABC123" ++ [9%N] ++ py "device" ++ [9%N] ++ py "usb".
Definition line_unauthorized : str :=
  py "XYZ999" ++ [9%N] ++ py "unauthorized" ++ [9%N] ++ py "usb".

(** The header [adb devices] prints. *)
Definition adb_header : str := py "List of devices attached".

(** An environment in which every binary is on PATH, [adb devices] answers
    [listing] with exit code [adb_code], the settings command for value
    [3] exits with [enable_code], the one for value [0] with
    [disable_code], and [scrcpy] exits with [mirror_code]. *)
Definition scripted_env (listing : str) (adb_code enable_code disable_code mirror_code : Z) : Env :=
  mkEnv (fun _ => true)
        (fun _ cmd =>
           if str_eqb (nth 0 cmd []) (py "scrcpy") then mkSpawned mirror_code [] []
           else if str_eqb (nth 1 cmd []) (py "devices")
                then mkSpawned adb_code listing (py "adb: failed")
                else if str_eqb (nth 8 cmd []) (py "3")
                     then mkSpawned enable_code [] []
                     else mkSpawned disable_code [] []).

Definition example_listing : str :=
  adb_header ++ [LF] ++ line_ready ++ [LF] ++ line_unauthorized ++ [LF].

(* ===================================================================== *)
(** * Reading the log                                                     *)
(* ===================================================================== *)

Fixpoint cmd_eqb (a b : list str) : bool :=
  match a, b with
  | [], [] => true
  | x :: a', y :: b' => str_eqb x y && cmd_eqb a' b'
  | _, _ => false
  end.

(** The event is an invocation of the mirroring tool. *)
Definition is_mirror_run (e : Event) : bool :=
  match e with
  | Run (prog :: _) _ _ => str_eqb prog (py "scrcpy")
  | _ => false
  end.

(** The event is the settings command that sets stay-awake on [device] to
    [enabled]. *)
Definition is_stay_awake_run (device : str) (enabled : bool) (e : Event) : bool :=
  match e with
  | Run cmd _ _ => cmd_eqb cmd (stay_awake_cmd device enabled)
  | _ => false
  end.

Definition mirror_invocations (log : list Event) : list Event :=
  filter is_mirror_run log.


(** [prefix] is an initial segment of [s]. *)
Fixpoint starts_with (prefix s : str) : bool :=
  match prefix, s with
  | [], _ => true
  | a :: prefix', b :: s' => N.eqb a b && starts_with prefix' s'
  | _ :: _, [] => false
  end.

(** [x in text] for two strings: [x] occurs in [text]. *)
Fixpoint mentions (text x : str) : bool :=
  starts_with x text
  || match text with
     | [] => false
     | _ :: text' => mentions text' x
     end.

(** What [print_devices] prints for a listing: the no-devices message,
    or a title and one line per serial. *)
Definition devices_report (devices : list str) : list Event :=
  match devices with
  | [] => [Print Stdout msg_none_connected]
  | _ :: _ =>
      Print Stdout (py "Dispositivos detectados:")
      :: map (fun s => Print Stdout (py "- " ++ s)) devices
  end.


(** The log of [main] once both binaries were found on PATH. *)
Definition binaries_found (log : list Event) : list Event :=
  log ++ [Which (py "adb") true; Which (py "scrcpy") true].

Definition start_args (pr : str) (s : option str) (m : option Z)
    (screen_off awake mute : bool) : Namespace :=
  mkNamespace (py "start") pr s m screen_off awake mute.

(* ===================================================================== *)
(** * The runs of [start]                                                 *)
(* ===================================================================== *)

(** What [adb devices] answers when [main] queries it, the event this
    leaves in the log, and the log at that point. *)
Definition listing (env : Env) : Spawned :=
  spawn env (binaries_found []) adb_devices_cmd.

Definition listed (env : Env) : Event :=
  Run adb_devices_cmd true
      (mkCompleted (exit_code (listing env)) (Some (out_text (listing env)))
                   (Some (err_text (listing env)))).

Definition discovered (env : Env) : list Event := binaries_found [] ++ [listed env].

(** The device [start_stream] resolves, when one is listed. *)
Definition resolved (env : Env) (args : Namespace) : option str :=
  match scan_devices (out_text (listing env)) with
  | [] => None
  | first :: _ => Some (serial_or (serial args) first)
  end.

(** The enable command, the log when the session is announced, the
    mirroring tool, the log when it has ended, and the disable command. *)
Definition enable_child (env : Env) (device : str) : Spawned :=
  spawn env (discovered env) (stay_awake_cmd device true).

Definition announced (env : Env) (args : Namespace) (p : Profile) (device : str) : list Event :=
  discovered env
  ++ (if stay_awake args
      then [Run (stay_awake_cmd device true) false (uncaptured (enable_child env device))]
      else [])
  ++ [Print Stdout (msg_starting p device)].

Definition mirror_child (env : Env) (args : Namespace) (p : Profile) (device : str) : Spawned :=
  spawn env (announced env args p device) (mirror_cmd args p device).

Definition mirrored (env : Env) (args : Namespace) (p : Profile) (device : str) : list Event :=
  announced env args p device
  ++ [Run (mirror_cmd args p device) false (uncaptured (mirror_child env args p device))].

Definition disable_child (env : Env) (args : Namespace) (p : Profile) (device : str) : Spawned :=
  spawn env (mirrored env args p device) (stay_awake_cmd device false).

(** The events of the restoration of stay-awake. *)
Definition restored (env : Env) (args : Namespace) (p : Profile) (device : str) : list Event :=
  if stay_awake args then
    Run (stay_awake_cmd device false) false (uncaptured (disable_child env args p device))
    :: (if (exit_code (disable_child env args p device) =? 0)%Z then []
        else [Print Stderr msg_restore_warning])
  else [].

(** The eight ways a [start] operation can go, each with its final log
    and its outcome. *)
Inductive StartRun (env : Env) (args : Namespace) : list Event -> outcome Z -> Prop :=
| SR_no_adb :
    which env (py "adb") = false ->
    StartRun env args
      [Which (py "adb") false;
       Print Stderr (py "Error: " ++ msg_missing (py "adb"))]
      (Returned 1%Z)
| SR_no_scrcpy :
    which env (py "adb") = true ->
    which env (py "scrcpy") = false ->
    StartRun env args
      [Which (py "adb") true; Which (py "scrcpy") false;
       Print Stderr (py "Error: " ++ msg_missing (py "scrcpy"))]
      (Returned 1%Z)
| SR_unknown_profile :
    which env (py "adb") = true ->
    which env (py "scrcpy") = true ->
    dict_get PROFILES (profile args) = None ->
    StartRun env args (binaries_found []) (Raised (KeyError (profile args)))
| SR_listing_failed (p : Profile) :
    which env (py "adb") = true ->
    which env (py "scrcpy") = true ->
    dict_get PROFILES (profile args) = Some p ->
    exit_code (listing env) <> 0%Z ->
    StartRun env args
      (discovered env
       ++ [Print Stderr (py "Error: " ++ msg_adb_failed (err_text (listing env)))])
      (Returned 1%Z)
| SR_nothing_listed (p : Profile) :
    which env (py "adb") = true ->
    which env (py "scrcpy") = true ->
    dict_get PROFILES (profile args) = Some p ->
    exit_code (listing env) = 0%Z ->
    resolved env args = None ->
    StartRun env args (discovered env ++ [Print Stderr msg_no_devices]) (Returned 2%Z)
| SR_unavailable (p : Profile) (device : str) :
    which env (py "adb") = true ->
    which env (py "scrcpy") = true ->
    dict_get PROFILES (profile args) = Some p ->
    exit_code (listing env) = 0%Z ->
    resolved env args = Some device ->
    ~ In device (scan_devices (out_text (listing env))) ->
    StartRun env args
      (discovered env ++ [Print Stderr (msg_unavailable device)]) (Returned 2%Z)
| SR_enable_failed (p : Profile) (device : str) :
    which env (py "adb") = true ->
    which env (py "scrcpy") = true ->
    dict_get PROFILES (profile args) = Some p ->
    exit_code (listing env) = 0%Z ->
    resolved env args = Some device ->
    In device (scan_devices (out_text (listing env))) ->
    stay_awake args = true ->
    exit_code (enable_child env device) <> 0%Z ->
    StartRun env args
      (discovered env
       ++ [Run (stay_awake_cmd device true) false (uncaptured (enable_child env device));
           Print Stderr (py "Error: " ++ msg_stay_awake_failed)])
      (Returned 1%Z)
| SR_streamed (p : Profile) (device : str) :
    which env (py "adb") = true ->
    which env (py "scrcpy") = true ->
    dict_get PROFILES (profile args) = Some p ->
    exit_code (listing env) = 0%Z ->
    resolved env args = Some device ->
    In device (scan_devices (out_text (listing env))) ->
    (stay_awake args = true -> exit_code (enable_child env device) = 0%Z) ->
    StartRun env args
      (mirrored env args p device ++ restored env args p device)
      (Returned (exit_code (mirror_child env args p device))).

(** The command line of a [Run] event. *)
Definition command_line (e : Event) : option (list str) :=
  match e with
  | Run cmd _ _ => Some cmd
  | _ => None
  end.

(** The command lines spawned during a run, in order. *)
Fixpoint spawned (log : list Event) : list (list str) :=
  match log with
  | [] => []
  | e :: log' =>
      match command_line e with
      | Some cmd => cmd :: spawned log'
      | None => spawned log'
      end
  end.

(** A row of the table [adb devices] prints: its columns separated by
    tabs (serial, state and whatever follows; no column for a blank line). *)
Fixpoint render_row (columns : list str) : str :=
  match columns with
  | [] => []
  | [column] => column
  | column :: more => column ++ 9%N :: render_row more
  end.

(** The whole output: a header line, then the rows, each closed by LF. *)
Definition render_listing (header : str) (rows : list (list str)) : str :=
  header ++ [LF] ++ List.concat (map (fun row => render_row row ++ [LF]) rows).

(** The row is one of a ready device. *)
Definition ready_row (columns : list str) : bool :=
  match columns with
  | _ :: state :: _ => str_eqb state (py "device")
  | _ => false
  end.

(** A token: not empty and without whitespace. *)
Definition token (s : str) : Prop := s <> [] /\ existsb isspace s = false.

(* ===================================================================== *)
(** * Tactics                                                             *)
(* ===================================================================== *)

(** Unfold the monad and the effect primitives. *)
Ltac run_effects :=
  cbv [bind ret raise emit print shutil_which try_except_RuntimeError when
       report_error _require_binary].

(** Decide where an event of the final log comes from. *)
Ltac locate_event H :=
  repeat (apply in_app_or in H; destruct H as [H|H]);
  simpl in H;
  repeat (destruct H as [H|H]);
  try contradiction; try discriminate.

(** Split the final log of a [start] operation into its events. *)
Ltac start_events H :=
  cbv [mirrored announced restored discovered binaries_found] in H;
  repeat match type of H with
         | context [if stay_awake ?a then _ else _] =>
             let E := fresh "Hawake" in destruct (stay_awake a) eqn:E
         | context [if (?c =? 0)%Z then _ else _] => destruct (c =? 0)%Z
         end;
  locate_event H.

(** Two command lines of the program that differ: compare the program,
    the second argument and the last argument of the settings command. *)
Ltac distinct_commands shape :=
  match goal with
  | H : @eq (list str) _ _ |- _ =>
      apply (f_equal (fun c => (nth 0 c [], nth 1 c [], nth 8 c []))) in H;
      rewrite ?shape in H; simpl in H; discriminate H
  end.

(** No event of the log [H] speaks of runs the given command line. *)
Ltac no_such_command H shape :=
  start_events H; injection H as H _ _; distinct_commands shape.

(** The stay-awake command found in the log [H] is on the device of the
    session. *)
Ltac same_device H shape :=
  unfold listed in H;
  repeat (destruct H as [H|H]); try discriminate H; try contradiction;
  injection H as H _ _;
  first [ distinct_commands shape | symmetry; exact H ].

(* ===================================================================== *)
(** * Lemmas on strings                                                   *)
(* ===================================================================== *)

Lemma str_eqb_refl (a : str) : str_eqb a a = true.
Proof.
  induction a as [|x a IH]; simpl; [reflexivity|].
  now rewrite N.eqb_refl, IH.
Qed.

Lemma str_eqb_eq (a b : str) : str_eqb a b = true <-> a = b.
Proof.
  split.
  - revert b; induction a as [|x a IH]; intros [|y b]; simpl; try easy.
    intros H; apply andb_true_iff in H as [Hx Hr].
    apply N.eqb_eq in Hx; subst y. now rewrite (IH b Hr).
  - intros ->; apply str_eqb_refl.
Qed.

Lemma str_eqb_neq (a b : str) : str_eqb a b = false <-> a <> b.
Proof.
  split.
  - intros H E. apply str_eqb_eq in E. congruence.
  - intros H. destruct (str_eqb a b) eqn:E; [|reflexivity].
    apply str_eqb_eq in E. contradiction.
Qed.

Lemma str_in_In (x : str) (xs : list str) : str_in x xs = true <-> In x xs.
Proof.
  unfold str_in. rewrite existsb_exists. split.
  - intros (y & Hy & E). apply str_eqb_eq in E. now subst.
  - intros H. exists x. split; [assumption | apply str_eqb_refl].
Qed.

Lemma str_in_not_In (x : str) (xs : list str) : str_in x xs = false <-> ~ In x xs.
Proof.
  rewrite <- str_in_In. destruct (str_in x xs); split; congruence.
Qed.

(** Leading whitespace does not change the fields. *)
Lemma split_lstrip (s : str) : split (lstrip s) = split s.
Proof.
  unfold split. induction s as [|c s IH]; simpl; [reflexivity|].
  destruct (isspace c) eqn:E; [exact IH|].
  simpl. now rewrite E.
Qed.

(** Neither does trailing whitespace, whatever run is being read. *)
Lemma split_from_trailing (ws : str) :
  forallb isspace ws = true ->
  forall s cur, split_from cur (s ++ ws) = split_from cur s.
Proof.
  intros Hws. induction s as [|c s IH]; intros cur; simpl.
  - revert cur. induction ws as [|w ws IHw]; intros cur; [reflexivity|].
    simpl in Hws. apply andb_true_iff in Hws as [Hw Hr].
    simpl. rewrite Hw. specialize (IHw Hr []).
    destruct cur; [exact IHw | now rewrite IHw].
  - destruct (isspace c); [|apply IH].
    destruct cur; now rewrite IH.
Qed.

(** A string is the whitespace [lstrip] removed followed by what it kept. *)
Lemma lstrip_decompose (s : str) :
  exists ws, forallb isspace ws = true /\ s = ws ++ lstrip s.
Proof.
  induction s as [|c s (ws & Hws & E)]; [now exists []|].
  simpl. destruct (isspace c) eqn:Hc.
  - exists (c :: ws). simpl. rewrite Hc, Hws. split; [reflexivity | now f_equal].
  - now exists [].
Qed.

Lemma rstrip_decompose (s : str) :
  exists ws, forallb isspace ws = true /\ s = rstrip s ++ ws.
Proof.
  destruct (lstrip_decompose (rev s)) as (ws & Hws & E).
  exists (rev ws). split.
  - rewrite forallb_forall in *. intros x Hx. apply Hws. now apply in_rev.
  - unfold rstrip. rewrite <- rev_app_distr, <- E. symmetry; apply rev_involutive.
Qed.

Lemma split_rstrip (s : str) : split (rstrip s) = split s.
Proof.
  destruct (rstrip_decompose s) as (ws & Hws & E).
  unfold split. rewrite E at 2. symmetry. now apply split_from_trailing.
Qed.

(** [line.strip().split()] is [line.split()]. *)
Lemma split_strip (s : str) : split (strip s) = split s.
Proof.
  unfold strip. now rewrite split_rstrip, split_lstrip.
Qed.

Lemma existsb_rev {A : Type} (f : A -> bool) (l : list A) :
  existsb f (rev l) = existsb f l.
Proof.
  destruct (existsb f l) eqn:E.
  - apply existsb_exists in E as (x & Hx & Hf).
    apply existsb_exists. exists x. split; [now apply in_rev in Hx | assumption].
  - apply not_true_iff_false. intros H. apply not_true_iff_false in E. apply E.
    apply existsb_exists in H as (x & Hx & Hf).
    apply existsb_exists. exists x. split; [now apply in_rev | assumption].
Qed.

Lemma rev_cons_not_nil {A : Type} (x : A) (l : list A) : rev (x :: l) <> [].
Proof.
  intros E. apply (f_equal (@List.length A)) in E.
  rewrite length_rev in E. discriminate.
Qed.

(** Every field is a non-empty run without whitespace. *)
Lemma split_from_fields (s cur : str) :
  existsb isspace cur = false ->
  Forall (fun f => f <> [] /\ existsb isspace f = false) (split_from cur s).
Proof.
  revert cur. induction s as [|c s IH]; intros cur Hcur; simpl.
  - destruct cur as [|x cur]; constructor; [|constructor].
    split; [apply rev_cons_not_nil | now rewrite existsb_rev].
  - destruct (isspace c) eqn:Hc.
    + destruct cur as [|x cur]; [now apply IH|].
      constructor; [|now apply IH].
      split; [apply rev_cons_not_nil | now rewrite existsb_rev].
    + apply IH. simpl. now rewrite Hc.
Qed.

Lemma split_fields (s : str) :
  Forall (fun f => f <> [] /\ existsb isspace f = false) (split s).
Proof. now apply split_from_fields. Qed.

(** A prefix without line boundary, closed by LF, is the first line. *)
Lemma splitlines_from_first_line (header rest cur : str) :
  existsb is_linebreak header = false ->
  splitlines_from cur (header ++ LF :: rest)
  = rev (rev header ++ cur) :: splitlines rest.
Proof.
  revert cur. induction header as [|c h IH]; intros cur Hh; simpl.
  - destruct rest; reflexivity.
  - simpl in Hh. apply orb_false_iff in Hh as [Hc Hr].
    rewrite Hc, (IH _ Hr). simpl. now rewrite <- app_assoc.
Qed.

Lemma splitlines_first_line (header rest : str) :
  existsb is_linebreak header = false ->
  splitlines (header ++ LF :: rest) = header :: splitlines rest.
Proof.
  intros H. unfold splitlines at 1.
  rewrite (splitlines_from_first_line _ _ _ H), app_nil_r.
  now rewrite rev_involutive.
Qed.

(** A text without line boundary is at most one line. *)
Lemma splitlines_from_one_line (header cur : str) :
  existsb is_linebreak header = false ->
  tl (splitlines_from cur header) = [].
Proof.
  revert cur. induction header as [|c h IH]; intros cur Hh; simpl.
  - now destruct cur.
  - simpl in Hh. apply orb_false_iff in Hh as [Hc Hr].
    rewrite Hc. now apply IH.
Qed.

(* ===================================================================== *)
(** * The device listing                                                  *)
(* ===================================================================== *)

(** One turn of the loop appends the first field of a ready line and
    leaves the list alone otherwise. *)
Lemma list_devices_step_spec (devices : list str) (line : str) :
  list_devices_step devices line
  = if ready_line line then devices ++ [first_field line] else devices.
Proof.
  unfold list_devices_step, ready_line, first_field, fields.
  rewrite split_strip.
  destruct (split line) as [|serial [|state more]]; reflexivity.
Qed.

Lemma list_devices_loop (lines : list str) :
  forall devices,
    fold_left list_devices_step lines devices
    = devices ++ map first_field (filter ready_line lines).
Proof.
  induction lines as [|line lines IH]; intros devices; simpl.
  - now rewrite app_nil_r.
  - rewrite IH, list_devices_step_spec.
    destruct (ready_line line); simpl; [now rewrite <- app_assoc | reflexivity].
Qed.

Lemma scan_devices_spec (text : str) : scan_devices text = listDevices_spec text.
Proof.
  unfold scan_devices, listDevices_spec.
  rewrite list_devices_loop. simpl.
  now destruct (splitlines text).
Qed.

(** What [list_devices] does, by the exit code of [adb devices]. *)
Lemma list_devices_run (env : Env) (log : list Event) :
  let child := spawn env log adb_devices_cmd in
  let result := mkCompleted (exit_code child) (Some (out_text child))
                            (Some (err_text child)) in
  list_devices env log
  = (log ++ [Run adb_devices_cmd true result],
     if (exit_code child =? 0)%Z
     then Returned (scan_devices (out_text child))
     else Raised (RuntimeError (msg_adb_failed (err_text child)))).
Proof.
  unfold list_devices, bind, run_command. simpl.
  destruct (exit_code (spawn env log adb_devices_cmd) =? 0)%Z; reflexivity.
Qed.

(** C1: on every captured listing, [list_devices] skips the first line and
    returns, in their order, the first field of each remaining line that
    has at least two whitespace-separated fields and whose second field is
    the token [device]; this is what the call returns whenever
    [adb devices] exits with code 0.  With any header line, the lines
    [ABC123 device usb] and [XYZ999 unauthorized usb] (tab-separated) give
    exactly [ABC123], and a header alone, with or without its end of
    line, gives the empty list. *)
Theorem list_devices_ready_serials :
  (forall text, scan_devices text = listDevices_spec text)
  /\ (forall env log,
        exit_code (spawn env log adb_devices_cmd) = 0%Z ->
        snd (list_devices env log)
        = Returned (listDevices_spec (out_text (spawn env log adb_devices_cmd))))
  /\ (forall header,
        existsb is_linebreak header = false ->
        scan_devices (header ++ [LF] ++ line_ready ++ [LF]
                      ++ line_unauthorized ++ [LF]) = [py "ABC123"]
        /\ scan_devices (header ++ [LF]) = []
        /\ scan_devices header = []).
Proof.
  split; [exact scan_devices_spec|]. split.
  - intros env log H. rewrite list_devices_run. simpl.
    now rewrite H, scan_devices_spec.
  - intros header H. repeat split.
    + unfold scan_devices. simpl app.
      now rewrite (splitlines_first_line _ _ H).
    + unfold scan_devices. simpl app.
      now rewrite (splitlines_first_line _ _ H).
    + rewrite scan_devices_spec. unfold listDevices_spec, splitlines.
      now rewrite (splitlines_from_one_line _ _ H).
Qed.

Lemma list_devices_ready_serials_witness :
  snd (list_devices (scripted_env example_listing 0 0 0 0) [])
  = Returned (listDevices_spec example_listing)
  /\ scan_devices example_listing = [py "ABC123"]
  /\ scan_devices (adb_header ++ [LF]) = []
  /\ scan_devices adb_header = [].
Proof.
  destruct list_devices_ready_serials as (_ & Hrun & Hex).
  split.
  - apply (Hrun (scripted_env example_listing 0 0 0 0) []). reflexivity.
  - apply (Hex adb_header). reflexivity.
Defined.

(* ===================================================================== *)
(** * The profile table: lookup                                           *)
(* ===================================================================== *)

Lemma dict_get_absent {V : Type} (d : list (str * V)) (key : str) :
  ~ In key (dict_keys d) -> dict_get d key = None.
Proof.
  induction d as [|[k v] d IH]; simpl; intros H; [reflexivity|].
  destruct (str_eqb k key) eqn:E.
  - apply str_eqb_eq in E. exfalso. apply H. now left.
  - apply IH. intros Hin. apply H. now right.
Qed.

Lemma dict_get_present {V : Type} (d : list (str * V)) (key : str) :
  In key (dict_keys d) -> exists v, dict_get d key = Some v.
Proof.
  induction d as [|[k v] d IH]; simpl; intros H; [contradiction|].
  destruct (str_eqb k key) eqn:E; [now exists v|].
  destruct H as [H|H]; [|now apply IH].
  apply str_eqb_neq in E. contradiction.
Qed.

(* ===================================================================== *)
(** * What each function does to the log                                  *)
(* ===================================================================== *)

Lemma set_stay_awake_run (env : Env) (log : list Event) (device : str) (enabled : bool) :
  let child := spawn env log (stay_awake_cmd device enabled) in
  set_stay_awake device enabled env log
  = (log ++ [Run (stay_awake_cmd device enabled) false (uncaptured child)],
     if (exit_code child =? 0)%Z then Returned tt
     else Raised (RuntimeError msg_stay_awake_failed)).
Proof.
  unfold set_stay_awake, bind, run_command, uncaptured. simpl.
  destruct (exit_code _ =? 0)%Z; reflexivity.
Qed.

(** [start_stream] up to the resolution of the device. *)
Lemma start_stream_run (env : Env) (log : list Event) (args : Namespace) :
  start_stream args env log
  = match dict_get PROFILES (profile args) with
    | None => (log, Raised (KeyError (profile args)))
    | Some p =>
        match list_devices env log with
        | (log1, Raised e) => (log1, Raised e)
        | (log1, Returned []) =>
            (log1 ++ [Print Stderr msg_no_devices], Returned 2%Z)
        | (log1, Returned (first :: rest)) =>
            let device := serial_or (serial args) first in
            if str_in device (first :: rest)
            then stream_on args p device env log1
            else (log1 ++ [Print Stderr (msg_unavailable device)], Returned 2%Z)
        end
    end.
Proof.
  unfold start_stream, bind, subscript.
  destruct (dict_get PROFILES (profile args)) as [p|]; [|reflexivity].
  unfold ret at 1.
  destruct (list_devices env log) as [log1 [[|first rest]|e]]; try reflexivity.
  cbv zeta. destruct (str_in _ _); reflexivity.
Qed.

(** A session without [--stay-awake]: the announcement, then the
    mirroring tool, whose exit code is returned. *)
Lemma stream_on_plain (env : Env) (log : list Event) (args : Namespace)
    (p : Profile) (device : str) :
  stay_awake args = false ->
  let cmd := mirror_cmd args p device in
  let log1 := log ++ [Print Stdout (msg_starting p device)] in
  let mirror := spawn env log1 cmd in
  stream_on args p device env log
  = (log1 ++ [Run cmd false (uncaptured mirror)], Returned (exit_code mirror)).
Proof.
  intros H. unfold stream_on, bind, run_command, print, emit, ret, uncaptured.
  rewrite H. reflexivity.
Qed.

(** A session with [--stay-awake] whose enable command fails: nothing
    else is run. *)
Lemma stream_on_enable_failed (env : Env) (log : list Event) (args : Namespace)
    (p : Profile) (device : str) :
  stay_awake args = true ->
  let enable := spawn env log (stay_awake_cmd device true) in
  exit_code enable <> 0%Z ->
  stream_on args p device env log
  = (log ++ [Run (stay_awake_cmd device true) false (uncaptured enable)],
     Raised (RuntimeError msg_stay_awake_failed)).
Proof.
  intros H enable Hne. unfold stream_on, bind at 1. rewrite H.
  rewrite set_stay_awake_run. fold enable.
  apply Z.eqb_neq in Hne. now rewrite Hne.
Qed.

(** A session with [--stay-awake] whose enable command succeeds: enable,
    announcement, mirroring tool, disable, and a warning when the disable
    command fails; the exit code of the mirroring tool is returned. *)
Lemma stream_on_stay_awake (env : Env) (log : list Event) (args : Namespace)
    (p : Profile) (device : str) :
  stay_awake args = true ->
  let enable := spawn env log (stay_awake_cmd device true) in
  exit_code enable = 0%Z ->
  let cmd := mirror_cmd args p device in
  let log1 := log ++ [Run (stay_awake_cmd device true) false (uncaptured enable);
                      Print Stdout (msg_starting p device)] in
  let mirror := spawn env log1 cmd in
  let log2 := log1 ++ [Run cmd false (uncaptured mirror)] in
  let disable := spawn env log2 (stay_awake_cmd device false) in
  stream_on args p device env log
  = (log2 ++ Run (stay_awake_cmd device false) false (uncaptured disable)
          :: (if (exit_code disable =? 0)%Z then []
              else [Print Stderr msg_restore_warning]),
     Returned (exit_code mirror)).
Proof.
  intros H enable Hok cmd log1 mirror log2 disable.
  unfold stream_on. rewrite H. unfold bind at 1.
  rewrite set_stay_awake_run. fold enable. rewrite Hok. simpl Z.eqb. cbv iota.
  unfold bind, print, emit, run_command, try_except_RuntimeError, ret.
  rewrite set_stay_awake_run. fold cmd.
  replace ((log ++ [Run (stay_awake_cmd device true) false (uncaptured enable)])
           ++ [Print Stdout (msg_starting p device)]) with log1
    by (unfold log1; now rewrite <- app_assoc).
  fold mirror. change (mkCompleted (exit_code mirror) None None) with (uncaptured mirror).
  fold log2. fold disable.
  destruct (exit_code disable =? 0)%Z; simpl.
  - reflexivity.
  - now rewrite <- app_assoc.
Qed.

(** [main] on [start] when both binaries are on PATH. *)
Lemma main_start_found (env : Env) (log : list Event) (args : Namespace) :
  command args = py "start" ->
  which env (py "adb") = true ->
  which env (py "scrcpy") = true ->
  main args env log
  = try_except_RuntimeError (start_stream args) report_error env
      (binaries_found log).
Proof.
  intros Hc Ha Hs. unfold main. rewrite Hc.
  unfold try_except_RuntimeError, bind, when, _require_binary, shutil_which, bind, ret.
  simpl. rewrite Ha, Hs. unfold binaries_found.
  now rewrite <- app_assoc.
Qed.

(** [main] when [adb] is needed and missing. *)
Lemma main_missing_adb (env : Env) (log : list Event) (args : Namespace) :
  str_in (command args) [py "devices"; py "start"] = true ->
  which env (py "adb") = false ->
  main args env log
  = (log ++ [Which (py "adb") false;
             Print Stderr (py "Error: " ++ msg_missing (py "adb"))],
     Returned 1%Z).
Proof.
  intros Hc Ha. unfold main.
  apply str_in_In in Hc. destruct Hc as [Hc|[Hc|[]]]; rewrite <- Hc;
    run_effects; simpl; rewrite Ha; now rewrite <- app_assoc.
Qed.

(** [main] on [start] when [scrcpy] is missing. *)
Lemma main_missing_scrcpy (env : Env) (log : list Event) (args : Namespace) :
  command args = py "start" ->
  which env (py "adb") = true ->
  which env (py "scrcpy") = false ->
  main args env log
  = (log ++ [Which (py "adb") true; Which (py "scrcpy") false;
             Print Stderr (py "Error: " ++ msg_missing (py "scrcpy"))],
     Returned 1%Z).
Proof.
  intros Hc Ha Hs. unfold main. rewrite Hc.
  run_effects. simpl. rewrite Ha. simpl. rewrite Hs. now rewrite <- !app_assoc.
Qed.

(* ===================================================================== *)
(** * Claims on the profile table and on the command line                 *)
(* ===================================================================== *)

(** C5: looking up each of the three fixed names [balanced],
    [low-latency] and [ultra-low-latency] returns the recorded bitrate,
    maximal frame rate and codec of that entry, and looking up any other
    name fails: [PROFILES[name]] raises [KeyError], which is the
    specification's [UnknownProfile]. *)
Theorem profile_lookup :
  (forall env log,
      subscript PROFILES (py "balanced") env log
      = (log, Returned (mkProfile (py "balanced") (py "8M") 60 (py "h264"))))
  /\ (forall env log,
      subscript PROFILES (py "low-latency") env log
      = (log, Returned (mkProfile (py "low-latency") (py "6M") 45 (py "h264"))))
  /\ (forall env log,
      subscript PROFILES (py "ultra-low-latency") env log
      = (log, Returned (mkProfile (py "ultra-low-latency") (py "4M") 30 (py "h264"))))
  /\ (forall key,
      key <> py "balanced" -> key <> py "low-latency" ->
      key <> py "ultra-low-latency" ->
      forall env log, subscript PROFILES key env log = (log, Raised (KeyError key))).
Proof.
  repeat split; try reflexivity.
  intros key H1 H2 H3 env log. unfold subscript.
  rewrite dict_get_absent; [reflexivity|].
  simpl. intros [E|[E|[E|[]]]]; symmetry in E; contradiction.
Qed.

Lemma profile_lookup_witness :
  run (subscript PROFILES (py "turbo")) (scripted_env [] 0 0 0 0)
  = ([], Raised (KeyError (py "turbo"))).
Proof.
  destruct profile_lookup as (_ & _ & _ & H).
  apply (H (py "turbo")); discriminate.
Defined.

(** The command line in one expression: the program, the four base pairs,
    then each optional argument when it was requested. *)
Lemma mirror_cmd_shape (args : Namespace) (p : Profile) (device : str) :
  mirror_cmd args p device
  = [py "scrcpy"; py "--serial"; device; py "--video-bit-rate"; bitrate p;
     py "--max-fps"; str_of_int (max_fps p); py "--video-codec"; codec p]
    ++ match max_size args with
       | Some n => if (n =? 0)%Z then [] else [py "--max-size"; str_of_int n]
       | None => []
       end
    ++ (if turn_screen_off args then [py "--turn-screen-off"] else [])
    ++ (if no_audio args then [py "--no-audio"] else []).
Proof.
  unfold mirror_cmd, max_size_truthy.
  destruct (max_size args) as [n|]; [destruct (n =? 0)%Z|];
    destruct (turn_screen_off args), (no_audio args); reflexivity.
Qed.

(** C3: for the profile that [balanced] resolves to and any device, the
    command line without optional flags is the program name followed by
    exactly the four base pairs (serial selector, bitrate [8M], maximal
    frame rate [60], codec [h264]); [--max-size 1024] appends exactly the
    pair [--max-size 1024]; and in general, for every profile, the base
    pairs carry the values of the profile, and the [--max-size] pair,
    [--turn-screen-off] and [--no-audio] are appended, in this order,
    exactly when they are requested (a [--max-size] of 0 counting as not
    requested). *)
Theorem mirror_cmd_arguments :
  forall p, dict_get PROFILES (py "balanced") = Some p ->
  forall (s : option str) (awake : bool) (device : str),
    mirror_cmd (start_args (py "balanced") s None false awake false) p device
    = [py "scrcpy"; py "--serial"; device; py "--video-bit-rate"; py "8M";
       py "--max-fps"; py "60"; py "--video-codec"; py "h264"]
    /\ mirror_cmd (start_args (py "balanced") s (Some 1024%Z) false awake false) p device
       = mirror_cmd (start_args (py "balanced") s None false awake false) p device
         ++ [py "--max-size"; py "1024"]
    /\ (forall (args : Namespace) (q : Profile),
          mirror_cmd args q device
          = [py "scrcpy"; py "--serial"; device; py "--video-bit-rate"; bitrate q;
             py "--max-fps"; str_of_int (max_fps q); py "--video-codec"; codec q]
            ++ match max_size args with
               | Some n => if (n =? 0)%Z then [] else [py "--max-size"; str_of_int n]
               | None => []
               end
            ++ (if turn_screen_off args then [py "--turn-screen-off"] else [])
            ++ (if no_audio args then [py "--no-audio"] else [])).
Proof.
  intros p Hp s awake device. injection Hp as <-.
  repeat split.
  intros args q. apply mirror_cmd_shape.
Qed.

Lemma mirror_cmd_arguments_witness :
  mirror_cmd (start_args (py "balanced") None None false false false)
             (mkProfile (py "balanced") (py "8M") 60 (py "h264")) (py "ABC123")
  = [py "scrcpy"; py "--serial"; py "ABC123"; py "--video-bit-rate"; py "8M";
     py "--max-fps"; py "60"; py "--video-codec"; py "h264"].
Proof.
  exact (proj1 (mirror_cmd_arguments
                  (mkProfile (py "balanced") (py "8M") 60 (py "h264")) eq_refl
                  None false (py "ABC123"))).
Defined.

(** C10: with [--max-size 0] no [--max-size] pair is appended: the command
    line is the one built when the option is absent, that is the base
    pairs followed by the requested flags only, and the whole [start]
    operation behaves as it does without the option. *)
Theorem max_size_zero_not_requested :
  forall (c pr : str) (s : option str) (screen_off awake mute : bool)
         (p : Profile) (device : str),
    mirror_cmd (mkNamespace c pr s (Some 0%Z) screen_off awake mute) p device
    = mirror_cmd (mkNamespace c pr s None screen_off awake mute) p device
    /\ mirror_cmd (mkNamespace c pr s (Some 0%Z) screen_off awake mute) p device
       = [py "scrcpy"; py "--serial"; device; py "--video-bit-rate"; bitrate p;
          py "--max-fps"; str_of_int (max_fps p); py "--video-codec"; codec p]
         ++ (if screen_off then [py "--turn-screen-off"] else [])
         ++ (if mute then [py "--no-audio"] else [])
    /\ (forall env log,
          start_stream (mkNamespace c pr s (Some 0%Z) screen_off awake mute) env log
          = start_stream (mkNamespace c pr s None screen_off awake mute) env log).
Proof.
  intros. repeat split.
  rewrite mirror_cmd_shape. reflexivity.
Qed.

(* ===================================================================== *)
(** * The session                                                         *)
(* ===================================================================== *)

Lemma mirror_invocations_app (l l' : list Event) :
  mirror_invocations (l ++ l') = mirror_invocations l ++ mirror_invocations l'.
Proof. apply filter_app. Qed.

(** [list_devices] extends the log by its one [adb devices] run. *)
Lemma list_devices_log (env : Env) (log log1 : list Event) (o : outcome (list str)) :
  list_devices env log = (log1, o) ->
  exists result, log1 = log ++ [Run adb_devices_cmd true result].
Proof.
  rewrite list_devices_run. intros E. injection E as <- _. eauto.
Qed.

Lemma list_devices_no_mirror (env : Env) (log log1 : list Event) (o : outcome (list str)) :
  list_devices env log = (log1, o) ->
  mirror_invocations log1 = mirror_invocations log.
Proof.
  intros E. apply list_devices_log in E as (result & ->).
  rewrite mirror_invocations_app. simpl. apply app_nil_r.
Qed.

(** [main] hands the value [start_stream] returns through. *)
Lemma main_start_returned (env : Env) (log log' : list Event) (args : Namespace) (z : Z) :
  command args = py "start" ->
  which env (py "adb") = true ->
  which env (py "scrcpy") = true ->
  start_stream args env (binaries_found log) = (log', Returned z) ->
  main args env log = (log', Returned z).
Proof.
  intros Hc Ha Hs E. rewrite (main_start_found _ _ _ Hc Ha Hs).
  unfold try_except_RuntimeError. now rewrite E.
Qed.

(** [main] turns a [RuntimeError] of [start_stream] into a message and
    the status 1. *)
Lemma main_start_failed (env : Env) (log log' : list Event) (args : Namespace) (msg : str) :
  command args = py "start" ->
  which env (py "adb") = true ->
  which env (py "scrcpy") = true ->
  start_stream args env (binaries_found log) = (log', Raised (RuntimeError msg)) ->
  main args env log = (log' ++ [Print Stderr (py "Error: " ++ msg)], Returned 1%Z).
Proof.
  intros Hc Ha Hs E. rewrite (main_start_found _ _ _ Hc Ha Hs).
  unfold try_except_RuntimeError. now rewrite E.
Qed.

(** [start_stream] when no device is listed. *)
Lemma start_stream_no_devices (env : Env) (log log1 : list Event) (args : Namespace) :
  In (profile args) (dict_keys PROFILES) ->
  list_devices env log = (log1, Returned []) ->
  start_stream args env log = (log1 ++ [Print Stderr msg_no_devices], Returned 2%Z).
Proof.
  intros Hp Hl. rewrite start_stream_run.
  destruct (dict_get_present _ _ Hp) as (p & ->). now rewrite Hl.
Qed.

(** [start_stream] when the requested serial is not listed. *)
Lemma start_stream_unavailable (env : Env) (log log1 : list Event)
    (args : Namespace) (x : str) (devices : list str) :
  In (profile args) (dict_keys PROFILES) ->
  serial args = Some x -> x <> [] ->
  list_devices env log = (log1, Returned devices) ->
  devices <> [] -> ~ In x devices ->
  start_stream args env log
  = (log1 ++ [Print Stderr (msg_unavailable x)], Returned 2%Z).
Proof.
  intros Hp Hs Hx Hl Hd Hn. rewrite start_stream_run.
  destruct (dict_get_present _ _ Hp) as (p & ->). rewrite Hl.
  destruct devices as [|first rest]; [contradiction|].
  rewrite Hs. cbv zeta.
  assert (E : serial_or (Some x) first = x) by (destruct x; [contradiction | reflexivity]).
  rewrite E. apply str_in_not_In in Hn. now rewrite Hn.
Qed.

(** [start_stream] when the resolved device is listed. *)
Lemma start_stream_resolved (env : Env) (log log1 : list Event)
    (args : Namespace) (p : Profile) (first : str) (rest : list str) :
  dict_get PROFILES (profile args) = Some p ->
  list_devices env log = (log1, Returned (first :: rest)) ->
  In (serial_or (serial args) first) (first :: rest) ->
  start_stream args env log
  = stream_on args p (serial_or (serial args) first) env log1.
Proof.
  intros Hp Hl Hin. rewrite start_stream_run, Hp, Hl. cbv zeta.
  apply str_in_In in Hin. now rewrite Hin.
Qed.

(** C6: when the device listing is empty, [start_stream] prints the
    no-devices message on the error stream and returns 2, the mirroring
    tool is not invoked, and 2 is the status [main] returns. *)
Theorem start_without_devices :
  forall env args log log1,
    In (profile args) (dict_keys PROFILES) ->
    list_devices env log = (log1, Returned []) ->
    start_stream args env log = (log1 ++ [Print Stderr msg_no_devices], Returned 2%Z)
    /\ mirror_invocations (log1 ++ [Print Stderr msg_no_devices])
       = mirror_invocations log
    /\ (forall log0,
          log = binaries_found log0 ->
          command args = py "start" ->
          which env (py "adb") = true ->
          which env (py "scrcpy") = true ->
          main args env log0 = (log1 ++ [Print Stderr msg_no_devices], Returned 2%Z)).
Proof.
  intros env args log log1 Hp Hl.
  pose proof (start_stream_no_devices _ _ _ _ Hp Hl) as Hs.
  split; [exact Hs|]. split.
  - rewrite mirror_invocations_app. simpl. rewrite app_nil_r.
    now apply list_devices_no_mirror in Hl.
  - intros log0 -> Hc Ha Hsc. now apply main_start_returned.
Qed.

Lemma start_without_devices_witness :
  let env := scripted_env (adb_header ++ [LF]) 0 0 0 0 in
  let args := start_args (py "balanced") None None false false false in
  let listed := Run adb_devices_cmd true
                    (mkCompleted 0 (Some (adb_header ++ [LF])) (Some (py "adb: failed"))) in
  start_stream args env (binaries_found [])
  = (binaries_found [] ++ [listed] ++ [Print Stderr msg_no_devices], Returned 2%Z)
  /\ main args env []
     = (binaries_found [] ++ [listed] ++ [Print Stderr msg_no_devices], Returned 2%Z).
Proof.
  intros env args listed.
  destruct (start_without_devices env args (binaries_found [])
              (binaries_found [] ++ [listed]))
    as (Hs & _ & Hm).
  - simpl. now left.
  - reflexivity.
  - split; [exact Hs|]. apply Hm; reflexivity.
Defined.

Lemma starts_with_app (x rest : str) : starts_with x (x ++ rest) = true.
Proof.
  induction x as [|c x IH]; simpl; [reflexivity|].
  now rewrite N.eqb_refl, IH.
Qed.

Lemma mentions_infix (before x after : str) : mentions (before ++ x ++ after) x = true.
Proof.
  induction before as [|c before IH]; simpl.
  - destruct (x ++ after) eqn:E; simpl; rewrite <- E, starts_with_app; reflexivity.
  - rewrite IH. apply orb_true_r.
Qed.

(** The message for an unavailable device names the device. *)
Lemma msg_unavailable_mentions (x : str) : mentions (msg_unavailable x) x = true.
Proof. unfold msg_unavailable. apply mentions_infix. Qed.

(** C7, as amended: when a non-empty [--serial X] is given, the device
    listing is not empty and [X] is not in it, [start_stream] prints on
    the error stream the message that names [X] and returns 2, the
    mirroring tool is not invoked, and 2 is the status [main] returns.
    An empty [--serial] value counts as no serial requested: the resolved
    device is the first listed one and [start_stream] does what it does
    without the option.  With an empty listing, whatever serial is
    requested, the message printed is the no-devices one and the status
    is 2. *)
Theorem start_with_unlisted_serial :
  (forall env args log log1 x devices,
      In (profile args) (dict_keys PROFILES) ->
      serial args = Some x -> x <> [] ->
      list_devices env log = (log1, Returned devices) ->
      devices <> [] -> ~ In x devices ->
      start_stream args env log
      = (log1 ++ [Print Stderr (msg_unavailable x)], Returned 2%Z)
      /\ mentions (msg_unavailable x) x = true
      /\ mirror_invocations (log1 ++ [Print Stderr (msg_unavailable x)])
         = mirror_invocations log
      /\ (forall log0,
            log = binaries_found log0 ->
            command args = py "start" ->
            which env (py "adb") = true ->
            which env (py "scrcpy") = true ->
            main args env log0
            = (log1 ++ [Print Stderr (msg_unavailable x)], Returned 2%Z)))
  /\ (forall (c pr : str) (m : option Z) (screen_off awake mute : bool),
        (forall first, serial_or (Some []) first = first)
        /\ (forall env log,
              start_stream (mkNamespace c pr (Some []) m screen_off awake mute) env log
              = start_stream (mkNamespace c pr None m screen_off awake mute) env log))
  /\ (forall env args log log1,
        In (profile args) (dict_keys PROFILES) ->
        list_devices env log = (log1, Returned []) ->
        start_stream args env log
        = (log1 ++ [Print Stderr msg_no_devices], Returned 2%Z)
        /\ (forall log0,
              log = binaries_found log0 ->
              command args = py "start" ->
              which env (py "adb") = true ->
              which env (py "scrcpy") = true ->
              main args env log0
              = (log1 ++ [Print Stderr msg_no_devices], Returned 2%Z))).
Proof.
  split; [|split].
  - intros env args log log1 x devices Hp Hs Hx Hl Hd Hn.
    pose proof (start_stream_unavailable _ _ _ _ _ _ Hp Hs Hx Hl Hd Hn) as H.
    split; [exact H|]. split; [apply msg_unavailable_mentions|]. split.
    + rewrite mirror_invocations_app. simpl. rewrite app_nil_r.
      now apply list_devices_no_mirror in Hl.
    + intros log0 -> Hc Ha Hsc. now apply main_start_returned.
  - intros c pr m screen_off awake mute. split; reflexivity.
  - intros env args log log1 Hp Hl.
    pose proof (start_stream_no_devices _ _ _ _ Hp Hl) as H.
    split; [exact H|].
    intros log0 -> Hc Ha Hsc. now apply main_start_returned.
Qed.

Lemma start_with_unlisted_serial_witness :
  (let env := scripted_env example_listing 0 0 0 0 in
   let args := start_args (py "balanced") (Some (py "XYZ999")) None false false false in
   let listed := Run adb_devices_cmd true
                     (mkCompleted 0 (Some example_listing) (Some (py "adb: failed"))) in
   main args env []
   = (binaries_found [] ++ [listed] ++ [Print Stderr (msg_unavailable (py "XYZ999"))],
      Returned 2%Z))
  /\
  (let env := scripted_env (adb_header ++ [LF]) 0 0 0 0 in
   let args := start_args (py "balanced") (Some (py "XYZ999")) None false false false in
   let listed := Run adb_devices_cmd true
                     (mkCompleted 0 (Some (adb_header ++ [LF])) (Some (py "adb: failed"))) in
   main args env []
   = (binaries_found [] ++ [listed] ++ [Print Stderr msg_no_devices], Returned 2%Z)).
Proof.
  destruct start_with_unlisted_serial as (Hunlisted & _ & Hempty).
  split.
  - intros env args listed.
    destruct (Hunlisted env args (binaries_found [])
                (binaries_found [] ++ [listed]) (py "XYZ999") [py "ABC123"])
      as (_ & _ & _ & Hm).
    + simpl. now left.
    + reflexivity.
    + discriminate.
    + reflexivity.
    + discriminate.
    + simpl. intros [E|[]]. discriminate.
    + apply Hm; reflexivity.
  - intros env args listed.
    destruct (Hempty env args (binaries_found []) (binaries_found [] ++ [listed]))
      as (_ & Hm).
    + simpl. now left.
    + reflexivity.
    + apply Hm; reflexivity.
Defined.

(** C7 as stated fails on two inputs.  With [--serial] given the empty
    string and [ABC123] listed, the empty string is not a listed serial,
    yet the session runs on [ABC123]: the mirroring tool is invoked and its
    exit code 7 is returned.  With [--serial XYZ999] and an empty listing
    the status is 2, but the one message printed is the no-devices message,
    which does not name [XYZ999]. *)
Lemma unlisted_serial_counterexample :
  (let env := scripted_env example_listing 0 0 0 7 in
   let args := start_args (py "balanced") (Some []) None false false false in
   let cmd := [py "scrcpy"; py "--serial"; py "ABC123"; py "--video-bit-rate";
               py "8M"; py "--max-fps"; py "60"; py "--video-codec"; py "h264"] in
   serial args = Some []
   /\ snd (run list_devices env) = Returned [py "ABC123"]
   /\ ~ In [] [py "ABC123"]
   /\ snd (run (start_stream args) env) = Returned 7%Z
   /\ mirror_invocations (fst (run (start_stream args) env))
      = [Run cmd false (mkCompleted 7 None None)]
   /\ snd (run (main args) env) = Returned 7%Z)
  /\
  (let env := scripted_env (adb_header ++ [LF]) 0 0 0 0 in
   let args := start_args (py "balanced") (Some (py "XYZ999")) None false false false in
   snd (run list_devices env) = Returned []
   /\ run (start_stream args) env
      = ([Run adb_devices_cmd true
              (mkCompleted 0 (Some (adb_header ++ [LF])) (Some (py "adb: failed")));
          Print Stderr msg_no_devices],
         Returned 2%Z)
   /\ mentions msg_no_devices (py "XYZ999") = false).
Proof.
  split; cbv zeta; repeat split; try reflexivity.
  simpl. intros [E|[]]. discriminate.
Qed.

(** C8: when no serial is requested and the listing is not empty, the
    resolved device is the first listed serial: [start_stream] continues
    with the session on that device, and the command line for the
    mirroring tool selects it. *)
Theorem default_device_is_first :
  forall env args log log1 p first rest,
    serial args = None ->
    dict_get PROFILES (profile args) = Some p ->
    list_devices env log = (log1, Returned (first :: rest)) ->
    serial_or (serial args) first = first
    /\ start_stream args env log = stream_on args p first env log1
    /\ firstn 3 (mirror_cmd args p first) = [py "scrcpy"; py "--serial"; first].
Proof.
  intros env args log log1 p first rest Hs Hp Hl.
  assert (E : serial_or (serial args) first = first) by now rewrite Hs.
  split; [exact E|]. split.
  - pose proof (start_stream_resolved _ _ _ _ _ _ _ Hp Hl) as H.
    rewrite E in H. apply H. now left.
  - now rewrite mirror_cmd_shape.
Qed.

Lemma default_device_is_first_witness :
  let env := scripted_env
               (example_listing ++ py "DEF456" ++ [9%N] ++ py "device" ++ [LF])
               0 0 0 0 in
  let args := start_args (py "balanced") None None false false false in
  snd (run list_devices env) = Returned [py "ABC123"; py "DEF456"]
  /\ start_stream args env []
     = stream_on args (mkProfile (py "balanced") (py "8M") 60 (py "h264"))
                 (py "ABC123") env (fst (run list_devices env)).
Proof.
  intros env args. split; [reflexivity|].
  refine (proj1 (proj2 (default_device_is_first env args [] (fst (run list_devices env))
                          (mkProfile (py "balanced") (py "8M") 60 (py "h264"))
                          (py "ABC123") [py "DEF456"] _ _ _))); reflexivity.
Defined.

(* ===================================================================== *)
(** * Stay-awake around the session                                       *)
(* ===================================================================== *)



Lemma is_mirror_run_mirror_cmd (args : Namespace) (p : Profile) (device : str)
    (cap : bool) (r : CompletedProcess) :
  is_mirror_run (Run (mirror_cmd args p device) cap r) = true.
Proof. now rewrite mirror_cmd_shape. Qed.



(** [main] when the enable command of a [--stay-awake] session fails. *)
Lemma main_enable_failed (env : Env) (args : Namespace) (log log1 : list Event)
    (p : Profile) (first : str) (rest : list str) :
  command args = py "start" ->
  which env (py "adb") = true ->
  which env (py "scrcpy") = true ->
  dict_get PROFILES (profile args) = Some p ->
  list_devices env (binaries_found log) = (log1, Returned (first :: rest)) ->
  let device := serial_or (serial args) first in
  In device (first :: rest) ->
  stay_awake args = true ->
  let enable := spawn env log1 (stay_awake_cmd device true) in
  exit_code enable <> 0%Z ->
  main args env log
  = (log1 ++ [Run (stay_awake_cmd device true) false (uncaptured enable);
              Print Stderr (py "Error: " ++ msg_stay_awake_failed)],
     Returned 1%Z).
Proof.
  intros Hc Ha Hs Hp Hl device Hin Hsa enable Hko.
  rewrite (main_start_failed env log
             (log1 ++ [Run (stay_awake_cmd device true) false (uncaptured enable)])
             args msg_stay_awake_failed Hc Ha Hs).
  - now rewrite <- app_assoc.
  - rewrite (start_stream_resolved _ _ _ _ _ _ _ Hp Hl Hin).
    now apply stream_on_enable_failed.
Qed.




(* ===================================================================== *)
(** * Exit status                                                         *)
(* ===================================================================== *)

(** Whenever the mirroring tool was invoked during a [start] operation,
    the status of the operation is the exit code of that invocation. *)
Lemma main_start_pass_through (env : Env) (args : Namespace)
    (cmd : list str) (cap : bool) (r : CompletedProcess) :
  command args = py "start" ->
  is_mirror_run (Run cmd cap r) = true ->
  In (Run cmd cap r) (fst (run (main args) env)) ->
  snd (run (main args) env) = Returned (returncode r).
Proof.
  intros Hc Hm. unfold run.
  destruct (which env (py "adb")) eqn:Ha.
  2:{ rewrite main_missing_adb by (try rewrite Hc; easy).
      intros H. locate_event H. }
  destruct (which env (py "scrcpy")) eqn:Hs.
  2:{ rewrite main_missing_scrcpy by easy. intros H. locate_event H. }
  rewrite (main_start_found _ _ _ Hc Ha Hs).
  unfold try_except_RuntimeError. rewrite start_stream_run.
  destruct (dict_get PROFILES (profile args)) as [p|].
  2:{ intros H. locate_event H. }
  rewrite list_devices_run.
  destruct (exit_code (spawn env (binaries_found []) adb_devices_cmd) =? 0)%Z.
  2:{ cbv [report_error bind print emit ret]. intros H. locate_event H.
      injection H as <- <- <-. discriminate. }
  destruct (scan_devices _) as [|first rest].
  { intros H. locate_event H. injection H as <- <- <-. discriminate. }
  cbv zeta. destruct (str_in _ _).
  2:{ intros H. locate_event H. injection H as <- <- <-. discriminate. }
  destruct (stay_awake args) eqn:Hsa.
  - match goal with
    | |- context [stream_on args p ?d env ?l] =>
        destruct (Z.eq_dec (exit_code (spawn env l (stay_awake_cmd d true))) 0)
          as [Hok|Hko]
    end.
    + rewrite (stream_on_stay_awake _ _ _ _ _ Hsa Hok).
      destruct (_ =? 0)%Z;
        intros H; locate_event H; injection H as <- <- <-; try discriminate;
        reflexivity.
    + rewrite (stream_on_enable_failed _ _ _ _ _ Hsa Hko).
      cbv [report_error bind print emit ret].
      intros H. locate_event H; injection H as <- <- <-; discriminate.
  - rewrite (stream_on_plain _ _ _ _ _ Hsa).
    intros H. locate_event H; injection H as <- <- <-; try discriminate.
    reflexivity.
Qed.

(** C4: a [start] operation that reaches the streaming step, that is one
    in which the mirroring tool is invoked, returns the exit code of that
    invocation; the two no-device outcomes (nothing listed, requested
    serial not listed) return 2; a missing [adb] or [scrcpy] and a failing
    stay-awake enable command return 1. *)
Theorem exit_status :
  (forall env args cmd cap r,
      command args = py "start" ->
      is_mirror_run (Run cmd cap r) = true ->
      In (Run cmd cap r) (fst (run (main args) env)) ->
      snd (run (main args) env) = Returned (returncode r))
  /\ (forall env args log1 devices,
      command args = py "start" ->
      In (profile args) (dict_keys PROFILES) ->
      which env (py "adb") = true ->
      which env (py "scrcpy") = true ->
      list_devices env (binaries_found []) = (log1, Returned devices) ->
      devices = []
      \/ (devices <> []
          /\ exists x, serial args = Some x /\ x <> [] /\ ~ In x devices) ->
      snd (run (main args) env) = Returned 2%Z)
  /\ (forall env args,
      command args = py "start" ->
      which env (py "adb") = false \/ which env (py "scrcpy") = false ->
      snd (run (main args) env) = Returned 1%Z)
  /\ (forall env args log1 p first rest,
      command args = py "start" ->
      which env (py "adb") = true ->
      which env (py "scrcpy") = true ->
      dict_get PROFILES (profile args) = Some p ->
      list_devices env (binaries_found []) = (log1, Returned (first :: rest)) ->
      In (serial_or (serial args) first) (first :: rest) ->
      stay_awake args = true ->
      exit_code (spawn env log1 (stay_awake_cmd (serial_or (serial args) first) true))
      <> 0%Z ->
      snd (run (main args) env) = Returned 1%Z).
Proof.
  split; [exact main_start_pass_through|]. split; [|split].
  - intros env args log1 devices Hc Hp Ha Hs Hl Hd. unfold run.
    destruct Hd as [->|(Hne & x & Hx & Hxne & Hnot)].
    + rewrite (main_start_returned env [] (log1 ++ [Print Stderr msg_no_devices])
                 args 2 Hc Ha Hs); [reflexivity|].
      now apply start_stream_no_devices.
    + rewrite (main_start_returned env []
                 (log1 ++ [Print Stderr (msg_unavailable x)]) args 2 Hc Ha Hs);
        [reflexivity|].
      now apply (start_stream_unavailable _ _ _ _ _ devices).
  - intros env args Hc Hw. unfold run.
    destruct (which env (py "adb")) eqn:Ha.
    + destruct Hw as [Hw|Hw]; [discriminate|].
      now rewrite main_missing_scrcpy.
    + rewrite main_missing_adb; [reflexivity| now rewrite Hc |assumption].
  - intros env args log1 p first rest Hc Ha Hs Hp Hl Hin Hsa Hko. unfold run.
    now rewrite (main_enable_failed _ _ _ _ _ _ _ Hc Ha Hs Hp Hl Hin Hsa Hko).
Qed.

Lemma exit_status_witness :
  snd (run (main (start_args (py "balanced") None (Some 1024%Z) true false true))
           (scripted_env example_listing 0 0 0 7))
  = Returned 7%Z
  /\ snd (run (main (start_args (py "balanced") None None false false false))
              (mkEnv (fun b => str_eqb b (py "adb")) (fun _ _ => mkSpawned 0 [] [])))
     = Returned 1%Z.
Proof.
  destruct exit_status as (Hpass & _ & Hmissing & _).
  split.
  - apply (Hpass (scripted_env example_listing 0 0 0 7)
                 (start_args (py "balanced") None (Some 1024%Z) true false true)
                 [py "scrcpy"; py "--serial"; py "ABC123"; py "--video-bit-rate";
                  py "8M"; py "--max-fps"; py "60"; py "--video-codec"; py "h264";
                  py "--max-size"; py "1024"; py "--turn-screen-off"; py "--no-audio"]
                 false (mkCompleted 7 None None)).
    + reflexivity.
    + reflexivity.
    + simpl. do 4 right. left. reflexivity.
  - apply Hmissing; [reflexivity | right; reflexivity].
Defined.

(* ===================================================================== *)
(** * The [devices] subcommand                                            *)
(* ===================================================================== *)

Lemma print_each_run {A : Type} (f : A -> str) (xs : list A) (env : Env) :
  forall log,
    print_each f xs env log
    = (log ++ map (fun x => Print Stdout (f x)) xs, Returned tt).
Proof.
  induction xs as [|x xs IH]; intros log; simpl.
  - unfold ret. now rewrite app_nil_r.
  - unfold bind, print, emit. rewrite IH. now rewrite <- app_assoc.
Qed.

(** What [print_devices] does, by the exit code of [adb devices]. *)
Lemma print_devices_run (env : Env) (log : list Event) :
  let child := spawn env log adb_devices_cmd in
  let listed := Run adb_devices_cmd true
                    (mkCompleted (exit_code child) (Some (out_text child))
                                 (Some (err_text child))) in
  print_devices env log
  = if (exit_code child =? 0)%Z
    then (log ++ listed :: devices_report (scan_devices (out_text child)),
          Returned 0%Z)
    else (log ++ [listed], Raised (RuntimeError (msg_adb_failed (err_text child)))).
Proof.
  cbv zeta. unfold print_devices. unfold bind at 1. rewrite list_devices_run.
  destruct (exit_code _ =? 0)%Z; [|reflexivity].
  destruct (scan_devices _) as [|d ds] eqn:E.
  - cbv [bind print emit ret devices_report]. now rewrite <- app_assoc.
  - unfold bind at 1. cbv [print emit]. unfold bind.
    rewrite print_each_run. cbv [ret devices_report].
    rewrite <- !app_assoc. reflexivity.
Qed.

(** [main] on [devices] when [adb] is on PATH. *)
Lemma main_devices_found (env : Env) (log : list Event) (args : Namespace) :
  command args = py "devices" ->
  which env (py "adb") = true ->
  main args env log
  = try_except_RuntimeError print_devices report_error env
      (log ++ [Which (py "adb") true]).
Proof.
  intros Hc Ha. unfold main. rewrite Hc.
  cbv [bind ret shutil_which try_except_RuntimeError when _require_binary].
  simpl. now rewrite Ha.
Qed.

(** C9, as amended: the [devices] subcommand lists the ready devices, or
    prints the no-devices message, and returns 0 when [adb] is on PATH and
    [adb devices] exits with code 0; when [adb devices] exits nonzero, or
    when [adb] is not on PATH, it prints one error line on the error stream
    and returns 1. *)
Theorem devices_subcommand :
  forall env args log,
    command args = py "devices" ->
    let log1 := log ++ [Which (py "adb") true] in
    let child := spawn env log1 adb_devices_cmd in
    let listed := Run adb_devices_cmd true
                      (mkCompleted (exit_code child) (Some (out_text child))
                                   (Some (err_text child))) in
    (which env (py "adb") = true -> exit_code child = 0%Z ->
     main args env log
     = (log1 ++ listed :: devices_report (listDevices_spec (out_text child)),
        Returned 0%Z))
    /\ (which env (py "adb") = true -> exit_code child <> 0%Z ->
        main args env log
        = (log1 ++ [listed;
                    Print Stderr (py "Error: " ++ msg_adb_failed (err_text child))],
           Returned 1%Z))
    /\ (which env (py "adb") = false ->
        main args env log
        = (log ++ [Which (py "adb") false;
                   Print Stderr (py "Error: " ++ msg_missing (py "adb"))],
           Returned 1%Z)).
Proof.
  intros env args log Hc log1 child listed. repeat split.
  - intros Ha Hok. rewrite (main_devices_found _ _ _ Hc Ha).
    unfold try_except_RuntimeError. rewrite print_devices_run.
    fold log1 child listed. rewrite Hok, scan_devices_spec. reflexivity.
  - intros Ha Hko. rewrite (main_devices_found _ _ _ Hc Ha).
    unfold try_except_RuntimeError. rewrite print_devices_run.
    fold log1 child listed. apply Z.eqb_neq in Hko. rewrite Hko.
    cbv [report_error bind print emit ret]. now rewrite <- app_assoc.
  - intros Ha. apply main_missing_adb; [now rewrite Hc | assumption].
Qed.

Lemma devices_subcommand_witness :
  let args := mkNamespace (py "devices") [] None None false false false in
  main args (scripted_env example_listing 0 0 0 0) []
  = ([Which (py "adb") true;
      Run adb_devices_cmd true
          (mkCompleted 0 (Some example_listing) (Some (py "adb: failed")));
      Print Stdout (py "Dispositivos detectados:");
      Print Stdout (py "- ABC123")],
     Returned 0%Z)
  /\ main args (scripted_env (adb_header ++ [LF]) 0 0 0 0) []
     = ([Which (py "adb") true;
         Run adb_devices_cmd true
             (mkCompleted 0 (Some (adb_header ++ [LF])) (Some (py "adb: failed")));
         Print Stdout msg_none_connected],
        Returned 0%Z).
Proof.
  intros args. split.
  - apply (proj1 (devices_subcommand (scripted_env example_listing 0 0 0 0) args []
                    eq_refl)); reflexivity.
  - apply (proj1 (devices_subcommand (scripted_env (adb_header ++ [LF]) 0 0 0 0) args []
                    eq_refl)); reflexivity.
Defined.

(** C9 as stated fails when the listing query fails: with [adb] on PATH
    and [adb devices] exiting with code 1, the [devices] subcommand prints
    an error line on the error stream and returns 1. *)
Lemma devices_subcommand_counterexample :
  run (main (mkNamespace (py "devices") [] None None false false false))
      (scripted_env example_listing 1 0 0 0)
  = ([Which (py "adb") true;
      Run adb_devices_cmd true
          (mkCompleted 1 (Some example_listing) (Some (py "adb: failed")));
      Print Stderr (py "Error: Fallo ejecutando adb devices: adb: failed")],
     Returned 1%Z).
Proof. reflexivity. Qed.

(* ===================================================================== *)
(** * Every run of [start]                                                *)
(* ===================================================================== *)

Lemma resolved_listed (env : Env) (args : Namespace) (first : str) (rest : list str) :
  scan_devices (out_text (listing env)) = first :: rest ->
  resolved env args = Some (serial_or (serial args) first).
Proof. intros E. unfold resolved. now rewrite E. Qed.

(** [main] on [start] goes one of the eight ways of [StartRun]. *)
Lemma main_start_run (env : Env) (args : Namespace) :
  command args = py "start" ->
  StartRun env args (fst (run (main args) env)) (snd (run (main args) env)).
Proof.
  intros Hc. unfold run.
  destruct (which env (py "adb")) eqn:Ha.
  2:{ rewrite main_missing_adb by (try rewrite Hc; easy). now apply SR_no_adb. }
  destruct (which env (py "scrcpy")) eqn:Hs.
  2:{ rewrite main_missing_scrcpy by easy. now apply SR_no_scrcpy. }
  rewrite (main_start_found _ _ _ Hc Ha Hs).
  unfold try_except_RuntimeError. rewrite start_stream_run.
  destruct (dict_get PROFILES (profile args)) as [p|] eqn:Hp.
  2:{ now apply SR_unknown_profile. }
  rewrite list_devices_run. fold (listing env).
  destruct (Z.eq_dec (exit_code (listing env)) 0) as [Hl|Hl].
  2:{ pose proof Hl as Hl'. apply Z.eqb_neq in Hl'. rewrite Hl'.
      exact (SR_listing_failed env args p Ha Hs Hp Hl). }
  replace (exit_code (listing env) =? 0)%Z with true
    by (symmetry; now apply Z.eqb_eq).
  destruct (scan_devices (out_text (listing env))) as [|first rest] eqn:Hscan.
  { apply (SR_nothing_listed env args p Ha Hs Hp Hl). unfold resolved. now rewrite Hscan. }
  pose proof (resolved_listed env args first rest Hscan) as Hres.
  cbv zeta. set (device := serial_or (serial args) first) in *.
  destruct (str_in device (first :: rest)) eqn:Hin.
  2:{ apply str_in_not_In in Hin. rewrite <- Hscan in Hin.
      exact (SR_unavailable env args p device Ha Hs Hp Hl Hres Hin). }
  apply str_in_In in Hin. rewrite <- Hscan in Hin.
  destruct (stay_awake args) eqn:Hsa.
  - destruct (Z.eq_dec (exit_code (enable_child env device)) 0) as [Hok|Hko].
    + rewrite (stream_on_stay_awake _ _ _ _ _ Hsa Hok).
      pose proof (SR_streamed env args p device Ha Hs Hp Hl Hres Hin (fun _ => Hok)) as R.
      cbv [restored disable_child mirror_child mirrored announced] in R.
      rewrite Hsa in R. exact R.
    + rewrite (stream_on_enable_failed _ _ _ _ _ Hsa Hko).
      exact (SR_enable_failed env args p device Ha Hs Hp Hl Hres Hin Hsa Hko).
  - rewrite (stream_on_plain _ _ _ _ _ Hsa).
    assert (Hen : stay_awake args = true -> exit_code (enable_child env device) = 0%Z)
      by (rewrite Hsa; discriminate).
    pose proof (SR_streamed env args p device Ha Hs Hp Hl Hres Hin Hen) as R.
    cbv [restored disable_child mirror_child mirrored announced] in R.
    rewrite Hsa in R. rewrite app_nil_r in R. exact R.
Qed.

(* ===================================================================== *)
(** * More on the device listing                                          *)
(* ===================================================================== *)

Lemma linebreak_isspace (c : char) : is_linebreak c = true -> isspace c = true.
Proof.
  unfold is_linebreak, isspace.
  rewrite !orb_true_iff, !andb_true_iff, !N.leb_le, !N.eqb_eq. lia.
Qed.

Lemma token_no_linebreak (s : str) :
  existsb isspace s = false -> existsb is_linebreak s = false.
Proof.
  intros H. apply not_true_iff_false. intros E.
  apply existsb_exists in E as (c & Hc & Hb).
  apply not_true_iff_false in H. apply H.
  apply existsb_exists. exists c. split; [assumption | now apply linebreak_isspace].
Qed.

(** Reading a token moves it, reversed, in front of the current run. *)
Lemma split_from_token (tok rest : str) :
  existsb isspace tok = false ->
  forall cur, split_from cur (tok ++ rest) = split_from (rev tok ++ cur) rest.
Proof.
  induction tok as [|c tok IH]; intros H cur; [reflexivity|].
  simpl in H. apply orb_false_iff in H as [Hc Ht].
  simpl. rewrite Hc, (IH Ht). now rewrite <- app_assoc.
Qed.

(** A token followed by a whitespace character is the first field. *)
Lemma split_token_then_space (tok rest : str) (c : char) :
  token tok -> isspace c = true ->
  split (tok ++ c :: rest) = tok :: split rest.
Proof.
  intros [Hne Hws] Hc. unfold split.
  rewrite (split_from_token _ _ Hws), app_nil_r. simpl. rewrite Hc.
  destruct (rev tok) as [|x r] eqn:E.
  - apply (f_equal (@rev _)) in E. rewrite rev_involutive in E. contradiction.
  - rewrite <- E. now rewrite rev_involutive.
Qed.

(** A token alone is the one field. *)
Lemma split_token (tok : str) : token tok -> split tok = [tok].
Proof.
  intros [Hne Hws]. unfold split.
  rewrite <- (app_nil_r tok) at 1.
  rewrite (split_from_token _ _ Hws), app_nil_r. simpl.
  destruct (rev tok) as [|x r] eqn:E.
  - apply (f_equal (@rev _)) in E. rewrite rev_involutive in E. contradiction.
  - rewrite <- E. now rewrite rev_involutive.
Qed.

(** The fields of a rendered row are its columns. *)
Lemma split_render_row (columns : list str) :
  Forall token columns -> split (render_row columns) = columns.
Proof.
  induction 1 as [|column more Hc Hmore IH]; [reflexivity|].
  destruct more as [|next more]; [now apply split_token|].
  change (render_row (column :: next :: more))
    with (column ++ 9%N :: render_row (next :: more)).
  rewrite split_token_then_space by easy. now rewrite IH.
Qed.

Lemma render_row_one_line (columns : list str) :
  Forall token columns -> existsb is_linebreak (render_row columns) = false.
Proof.
  induction 1 as [|column more [_ Hc] Hmore IH]; [reflexivity|].
  apply token_no_linebreak in Hc.
  destruct more as [|next more]; [exact Hc|].
  change (render_row (column :: next :: more))
    with (column ++ 9%N :: render_row (next :: more)).
  rewrite existsb_app. apply orb_false_iff. split; [exact Hc | exact IH].
Qed.

(** Lines closed by LF are read back one by one. *)
Lemma splitlines_unlines (lines : list str) :
  Forall (fun l => existsb is_linebreak l = false) lines ->
  splitlines (List.concat (map (fun l => l ++ [LF]) lines)) = lines.
Proof.
  induction 1 as [|l lines Hl _ IH]; [reflexivity|].
  simpl. rewrite <- app_assoc. simpl.
  now rewrite (splitlines_first_line _ _ Hl), IH.
Qed.

Lemma scan_devices_tokens (text : str) : Forall token (scan_devices text).
Proof.
  rewrite scan_devices_spec. unfold listDevices_spec.
  apply Forall_forall. intros serial Hin.
  apply in_map_iff in Hin as (line & <- & Hline).
  apply filter_In in Hline as [_ Hready].
  unfold ready_line, first_field, fields in *.
  pose proof (split_fields line) as Hf.
  destruct (split line) as [|a [|b more]]; try discriminate.
  now inversion Hf.
Qed.

(** X2: every serial [list_devices] returns is a token, that is a
    non-empty string without whitespace, and there is at most one serial
    per line after the first. *)
Theorem listed_serials_are_tokens :
  forall text,
    Forall token (scan_devices text)
    /\ (List.length (scan_devices text) <= List.length (splitlines text) - 1)%nat.
Proof.
  intros text. split; [apply scan_devices_tokens|].
  rewrite scan_devices_spec. unfold listDevices_spec.
  rewrite length_map.
  etransitivity; [apply filter_length_le|].
  destruct (splitlines text); simpl; lia.
Qed.

(** X3: when the captured text is a header line followed by rows of
    tab-separated columns, each closed by LF (a row without column being a
    blank line), [list_devices] returns exactly the first column of the
    rows that have at least two columns and [device] as the second one, in
    the order of the rows and with repetitions kept. *)
Theorem render_listing_round_trip :
  forall header rows,
    existsb is_linebreak header = false ->
    Forall (Forall token) rows ->
    scan_devices (render_listing header rows)
    = map (fun row => hd [] row) (filter ready_row rows).
Proof.
  intros header rows Hh Hrows.
  rewrite scan_devices_spec. unfold listDevices_spec, render_listing. simpl app.
  rewrite (splitlines_first_line _ _ Hh). simpl tl.
  rewrite <- (map_map render_row (fun l => l ++ [LF])).
  rewrite splitlines_unlines.
  - induction Hrows as [|row rows Hrow _ IH]; [reflexivity|].
    simpl. unfold ready_line at 1, fields.
    rewrite (split_render_row _ Hrow). fold (ready_row row).
    destruct (ready_row row) eqn:Hready; [|exact IH].
    simpl. unfold first_field at 1, fields.
    rewrite (split_render_row _ Hrow), IH.
    now destruct row.
  - apply Forall_forall. intros l Hl.
    apply in_map_iff in Hl as (row & <- & Hrow).
    rewrite Forall_forall in Hrows.
    now apply render_row_one_line, Hrows.
Qed.

Lemma render_listing_round_trip_witness :
  scan_devices
    (render_listing adb_header
       [[py "ABC123"; py "device"; py "usb:1-2"]; [py "XYZ999"; py "offline"];
        [py "DEF456"; py "device"]; [py "device"]; [py "ABC123"; py "device"]; []])
  = [py "ABC123"; py "DEF456"; py "ABC123"].
Proof.
  apply (render_listing_round_trip adb_header
           [[py "ABC123"; py "device"; py "usb:1-2"]; [py "XYZ999"; py "offline"];
            [py "DEF456"; py "device"]; [py "device"]; [py "ABC123"; py "device"]; []]).
  - reflexivity.
  - repeat constructor; discriminate.
Defined.

(* ===================================================================== *)
(** * More on the session                                                 *)
(* ===================================================================== *)

(** What [list_devices] returns is the scan of some text. *)
Lemma list_devices_returned (env : Env) (log log1 : list Event) (devices : list str) :
  list_devices env log = (log1, Returned devices) ->
  exists text, devices = scan_devices text.
Proof.
  rewrite list_devices_run.
  destruct (exit_code _ =? 0)%Z; intros E; [|discriminate].
  injection E as _ <-. eauto.
Qed.

(** X4: a requested serial that is listed is the device of the session,
    wherever it stands in the listing. *)
Theorem requested_listed_serial :
  forall env args log log1 p x devices,
    serial args = Some x ->
    dict_get PROFILES (profile args) = Some p ->
    list_devices env log = (log1, Returned devices) ->
    In x devices ->
    start_stream args env log = stream_on args p x env log1.
Proof.
  intros env args log log1 p x devices Hs Hp Hl Hin.
  assert (Hx : serial_or (serial args) = fun _ => x).
  { destruct (list_devices_returned _ _ _ _ Hl) as (text & ->).
    pose proof (scan_devices_tokens text) as Htok.
    rewrite Forall_forall in Htok. destruct (Htok x Hin) as [Hne _].
    rewrite Hs. destruct x; [contradiction | reflexivity]. }
  destruct devices as [|first rest]; [contradiction|].
  rewrite (start_stream_resolved _ _ _ _ _ _ _ Hp Hl); rewrite Hx; [reflexivity | assumption].
Qed.

Lemma requested_listed_serial_witness :
  start_stream
    (start_args (py "low-latency") (Some (py "DEF456")) None false false false)
    (scripted_env
       (render_listing adb_header
          [[py "ABC123"; py "device"]; [py "DEF456"; py "device"]]) 0 0 0 0)
    []
  = stream_on
      (start_args (py "low-latency") (Some (py "DEF456")) None false false false)
      (mkProfile (py "low-latency") (py "6M") 45 (py "h264")) (py "DEF456")
      (scripted_env
         (render_listing adb_header
            [[py "ABC123"; py "device"]; [py "DEF456"; py "device"]]) 0 0 0 0)
      (fst (run list_devices
              (scripted_env
                 (render_listing adb_header
                    [[py "ABC123"; py "device"]; [py "DEF456"; py "device"]])
                 0 0 0 0))).
Proof.
  apply (requested_listed_serial _ _ _ _ _ _ [py "ABC123"; py "DEF456"]).
  - reflexivity.
  - reflexivity.
  - reflexivity.
  - simpl. right. left. reflexivity.
Defined.

(** X5: the mirroring tool is only ever given a listed device: whenever
    it is invoked during a [start] operation, both tools were found,
    [adb devices] had exited with code 0, and the value after [--serial]
    is one of the serials read from its output. *)
Theorem mirroring_targets_listed_device :
  forall env args cmd cap r,
    command args = py "start" ->
    is_mirror_run (Run cmd cap r) = true ->
    In (Run cmd cap r) (fst (run (main args) env)) ->
    which env (py "adb") = true
    /\ which env (py "scrcpy") = true
    /\ exit_code (listing env) = 0%Z
    /\ firstn 2 cmd = [py "scrcpy"; py "--serial"]
    /\ In (nth 2 cmd []) (scan_devices (out_text (listing env))).
Proof.
  intros env args cmd cap r Hc Hm.
  destruct (main_start_run env args Hc); intros Hin; start_events Hin;
    try (injection Hin as <- <- <-; try discriminate);
    rewrite mirror_cmd_shape; repeat split; assumption.
Qed.

Lemma mirroring_targets_listed_device_witness :
  In (py "ABC123")
     (scan_devices (out_text (listing (scripted_env example_listing 0 0 0 7)))).
Proof.
  refine (proj2 (proj2 (proj2 (proj2
    (mirroring_targets_listed_device
       (scripted_env example_listing 0 0 0 7)
       (start_args (py "balanced") None None false false false)
       [py "scrcpy"; py "--serial"; py "ABC123"; py "--video-bit-rate"; py "8M";
        py "--max-fps"; py "60"; py "--video-codec"; py "h264"]
       false (mkCompleted 7 None None) _ _ _))))).
  - reflexivity.
  - reflexivity.
  - simpl. do 4 right. left. reflexivity.
Defined.

(** X6: without [--stay-awake] a [start] operation never runs a
    stay-awake settings command, on any device and with any value. *)
Theorem no_settings_without_stay_awake :
  forall env args e device enabled,
    command args = py "start" ->
    stay_awake args = false ->
    In e (fst (run (main args) env)) ->
    is_stay_awake_run device enabled e = false.
Proof.
  intros env args e device enabled Hc Hsa.
  destruct (main_start_run env args Hc); intros Hin; try congruence;
    start_events Hin; try congruence; subst e; try reflexivity;
    unfold is_stay_awake_run; rewrite mirror_cmd_shape; reflexivity.
Qed.

Lemma no_settings_without_stay_awake_witness :
  is_stay_awake_run (py "ABC123") true
    (Run [py "scrcpy"; py "--serial"; py "ABC123"; py "--video-bit-rate"; py "8M";
          py "--max-fps"; py "60"; py "--video-codec"; py "h264"]
         false (mkCompleted 7 None None))
  = false.
Proof.
  apply (no_settings_without_stay_awake
           (scripted_env example_listing 0 0 0 7)
           (start_args (py "balanced") None None false false false)).
  - reflexivity.
  - reflexivity.
  - simpl. do 4 right. left. reflexivity.
Defined.

(** X7: a [start] operation retries nothing: no command line is spawned
    twice, and at most four processes are spawned. *)
Theorem no_command_twice :
  forall env args,
    command args = py "start" ->
    NoDup (spawned (fst (run (main args) env)))
    /\ (List.length (spawned (fst (run (main args) env))) <= 4)%nat.
Proof.
  intros env args Hc.
  destruct (main_start_run env args Hc);
    cbv [mirrored announced restored discovered binaries_found];
    repeat match goal with
           | |- context [if stay_awake ?a then _ else _] => destruct (stay_awake a)
           | |- context [if (?c =? 0)%Z then _ else _] => destruct (c =? 0)%Z
           end;
    (split; [|simpl; lia]);
    cbn [app spawned command_line];
    repeat (constructor; [cbn [In]; intuition; distinct_commands mirror_cmd_shape|]);
    constructor.
Qed.

Lemma no_command_twice_witness :
  NoDup (spawned (fst (run (main (start_args (py "balanced") None None false true false))
                           (scripted_env example_listing 0 0 1 7)))).
Proof.
  exact (proj1 (no_command_twice (scripted_env example_listing 0 0 1 7)
                  (start_args (py "balanced") None None false true false) eq_refl)).
Defined.

(* ===================================================================== *)
(** * Errors and statuses of [main]                                       *)
(* ===================================================================== *)

(** X8: [main] only catches [RuntimeError]: on [start] with a profile
    name that is not a key of [PROFILES] (which the parser's [choices]
    excludes), the [KeyError] of the lookup leaves [main], after the two
    PATH lookups and before any process is spawned or anything printed. *)
Theorem unknown_profile_escapes :
  forall env args,
    command args = py "start" ->
    which env (py "adb") = true ->
    which env (py "scrcpy") = true ->
    ~ In (profile args) (dict_keys PROFILES) ->
    run (main args) env
    = ([Which (py "adb") true; Which (py "scrcpy") true],
       Raised (KeyError (profile args))).
Proof.
  intros env args Hc Ha Hs Hp. unfold run.
  rewrite (main_start_found _ _ _ Hc Ha Hs).
  unfold try_except_RuntimeError. rewrite start_stream_run.
  now rewrite (dict_get_absent _ _ Hp).
Qed.

Lemma unknown_profile_escapes_witness :
  run (main (start_args (py "turbo") None None false false false))
      (scripted_env example_listing 0 0 0 0)
  = ([Which (py "adb") true; Which (py "scrcpy") true],
     Raised (KeyError (py "turbo"))).
Proof.
  apply (unknown_profile_escapes (scripted_env example_listing 0 0 0 0)
           (start_args (py "turbo") None None false false false)).
  - reflexivity.
  - reflexivity.
  - reflexivity.
  - simpl. intros [E|[E|[E|[]]]]; discriminate.
Defined.

(** X10: when [adb devices] exits nonzero during [start], the operation
    stops there, with or without [--stay-awake]: one error line that ends
    with the captured error text of [adb], stripped, is printed on the
    error stream, nothing else is spawned and the status is 1. *)
Theorem start_listing_failure :
  forall env args,
    command args = py "start" ->
    which env (py "adb") = true ->
    which env (py "scrcpy") = true ->
    In (profile args) (dict_keys PROFILES) ->
    exit_code (listing env) <> 0%Z ->
    run (main args) env
    = ([Which (py "adb") true; Which (py "scrcpy") true; listed env;
        Print Stderr (py "Error: Fallo ejecutando adb devices: "
                      ++ strip (err_text (listing env)))],
       Returned 1%Z).
Proof.
  intros env args Hc Ha Hs Hp Hl. unfold run.
  rewrite (main_start_found _ _ _ Hc Ha Hs).
  unfold try_except_RuntimeError. rewrite start_stream_run.
  destruct (dict_get_present _ _ Hp) as (p & ->).
  rewrite list_devices_run. fold (listing env).
  apply Z.eqb_neq in Hl. rewrite Hl. reflexivity.
Qed.

Lemma start_listing_failure_witness :
  run (main (start_args (py "balanced") None None false true false))
      (scripted_env example_listing 1 0 0 0)
  = ([Which (py "adb") true; Which (py "scrcpy") true;
      Run adb_devices_cmd true
          (mkCompleted 1 (Some example_listing) (Some (py "adb: failed")));
      Print Stderr (py "Error: Fallo ejecutando adb devices: adb: failed")],
     Returned 1%Z).
Proof.
  apply (start_listing_failure (scripted_env example_listing 1 0 0 0)
           (start_args (py "balanced") None None false true false)).
  - reflexivity.
  - reflexivity.
  - reflexivity.
  - simpl. now left.
  - discriminate.
Defined.

(** The mirroring invocations of a session that streamed. *)
Lemma mirror_invocations_streamed (env : Env) (args : Namespace) (p : Profile) (device : str) :
  mirror_invocations (mirrored env args p device ++ restored env args p device)
  = [Run (mirror_cmd args p device) false (uncaptured (mirror_child env args p device))].
Proof.
  unfold mirror_invocations.
  cbv [mirrored announced restored discovered binaries_found].
  rewrite !filter_app.
  destruct (stay_awake args); [destruct (_ =? 0)%Z|];
    cbn [filter app]; rewrite is_mirror_run_mirror_cmd; reflexivity.
Qed.

(** X11: a [start] operation invokes the mirroring tool at most once, and
    a returned status other than 1 and 2 (0 in particular) tells that the
    tool was invoked and exited with that status. *)
Theorem mirroring_at_most_once :
  forall env args,
    command args = py "start" ->
    (List.length (mirror_invocations (fst (run (main args) env))) <= 1)%nat
    /\ (forall z,
          snd (run (main args) env) = Returned z ->
          z <> 1%Z -> z <> 2%Z ->
          exists cmd result,
            mirror_invocations (fst (run (main args) env)) = [Run cmd false result]
            /\ returncode result = z).
Proof.
  intros env args Hc.
  destruct (main_start_run env args Hc);
    try (split; [simpl; lia | intros z E; now inversion E]).
  rewrite mirror_invocations_streamed. split; [simpl; lia|].
  intros z E _ _. injection E as <-. eauto.
Qed.

Lemma mirroring_at_most_once_witness :
  (List.length
     (mirror_invocations
        (fst (run (main (start_args (py "balanced") None None false true false))
                  (scripted_env example_listing 0 0 1 0)))) <= 1)%nat.
Proof.
  exact (proj1 (mirroring_at_most_once (scripted_env example_listing 0 0 1 0)
                  (start_args (py "balanced") None None false true false) eq_refl)).
Defined.

(** X1: the [profiles] subcommand needs no tool: whatever is on PATH, it
    looks nothing up and spawns nothing, prints the title and one line per
    profile in the order of the table, and returns 0. *)
Theorem profiles_subcommand :
  forall env args,
    command args = py "profiles" ->
    run (main args) env
    = ([Print Stdout (py "Perfiles disponibles:");
        Print Stdout (py "- balanced: bitrate=8M, max_fps=60, codec=h264");
        Print Stdout (py "- low-latency: bitrate=6M, max_fps=45, codec=h264");
        Print Stdout (py "- ultra-low-latency: bitrate=4M, max_fps=30, codec=h264")],
       Returned 0%Z).
Proof.
  intros env args Hc. unfold run, main. rewrite Hc. reflexivity.
Qed.

Lemma profiles_subcommand_witness :
  snd (run (main (mkNamespace (py "profiles") [] None None false false false))
           (mkEnv (fun _ => false) (fun _ _ => mkSpawned 1 [] [])))
  = Returned 0%Z.
Proof.
  rewrite (profiles_subcommand (mkEnv (fun _ => false) (fun _ _ => mkSpawned 1 [] []))
             (mkNamespace (py "profiles") [] None None false false false) eq_refl).
  reflexivity.
Defined.

(** [main] on [devices] returns 0 or 1. *)
Lemma main_devices_status (env : Env) (args : Namespace) :
  command args = py "devices" ->
  snd (run (main args) env) = Returned 0%Z \/ snd (run (main args) env) = Returned 1%Z.
Proof.
  intros Hc. unfold run.
  destruct (which env (py "adb")) eqn:Ha.
  - rewrite (main_devices_found _ _ _ Hc Ha).
    unfold try_except_RuntimeError. rewrite print_devices_run.
    destruct (_ =? 0)%Z; [now left | now right].
  - rewrite main_missing_adb; [now right | now rewrite Hc | assumption].
Qed.

(** X12: on each of the three subcommands no [RuntimeError] leaves
    [main]: those that [_require_binary], [list_devices] and
    [set_stay_awake] raise are caught by its [except] clause.  Nor does
    reading the captured streams raise [AttributeError]: they are read
    only where the output was captured.  And whenever [profiles] or
    [devices] returns, the status is 0 or 1. *)
Theorem no_runtime_error_leaves_main :
  forall env args,
    In (command args) [py "profiles"; py "devices"; py "start"] ->
    (forall msg, snd (run (main args) env) <> Raised (RuntimeError msg))
    /\ snd (run (main args) env) <> Raised AttributeError
    /\ (forall z,
          command args <> py "start" ->
          snd (run (main args) env) = Returned z ->
          z = 0%Z \/ z = 1%Z).
Proof.
  intros env args [Hc|[Hc|[Hc|[]]]]; symmetry in Hc.
  - unfold run, main. rewrite Hc. cbn.
    repeat split; try discriminate.
    intros z _ E. injection E as <-. now left.
  - destruct (main_devices_status env args Hc) as [E|E]; rewrite E;
      (repeat split; try discriminate);
      intros z _ Ez; injection Ez as <-; [now left | now right].
  - destruct (main_start_run env args Hc);
      (repeat split; try discriminate); intros z Hn; contradiction.
Qed.

Lemma no_runtime_error_leaves_main_witness :
  snd (run (main (start_args (py "balanced") None None false true false))
           (scripted_env example_listing 0 1 0 0))
  <> Raised (RuntimeError msg_stay_awake_failed)
  /\ snd (run (main (mkNamespace (py "devices") [] None None false false false))
              (scripted_env example_listing 1 0 0 0))
     <> Raised (RuntimeError (msg_adb_failed (py "adb: failed"))).
Proof.
  split.
  - apply (proj1 (no_runtime_error_leaves_main
                    (scripted_env example_listing 0 1 0 0)
                    (start_args (py "balanced") None None false true false)
                    (or_intror (or_intror (or_introl eq_refl))))).
  - apply (proj1 (no_runtime_error_leaves_main
                    (scripted_env example_listing 1 0 0 0)
                    (mkNamespace (py "devices") [] None None false false false)
                    (or_intror (or_introl eq_refl)))).
Defined.

(** X13: in a [start] operation the disable command is run on a device
    only if the enable command was run on that same device and exited with
    code 0. *)
Theorem disable_only_after_enable :
  forall env args device cap r,
    command args = py "start" ->
    In (Run (stay_awake_cmd device false) cap r) (fst (run (main args) env)) ->
    exists cap' r',
      In (Run (stay_awake_cmd device true) cap' r') (fst (run (main args) env))
      /\ returncode r' = 0%Z.
Proof.
  intros env args device cap r Hc.
  destruct (main_start_run env args Hc) as
      [ Ha | Ha Hs | Ha Hs Hp | p Ha Hs Hp Hl | p Ha Hs Hp Hl Hres
        | p d Ha Hs Hp Hl Hres Hnin | p d Ha Hs Hp Hl Hres Hin Hsa Hko
        | p d Ha Hs Hp Hl Hres Hin Hen ].
  1-7: intros H; no_such_command H mirror_cmd_shape.
  cbv [mirrored announced restored discovered binaries_found].
  destruct (stay_awake args) eqn:Hawake.
  2:{ intros H; no_such_command H mirror_cmd_shape. }
  specialize (Hen eq_refl).
  destruct (_ =? 0)%Z; simpl; intros H;
    (assert (device = d) as -> by same_device H mirror_cmd_shape);
    exists false, (uncaptured (enable_child env d));
    (split; [do 3 right; left; reflexivity | exact Hen]).
Qed.

Lemma disable_only_after_enable_witness :
  exists cap r,
    In (Run (stay_awake_cmd (py "ABC123") true) cap r)
       (fst (run (main (start_args (py "balanced") None None false true false))
                 (scripted_env example_listing 0 0 1 7)))
    /\ returncode r = 0%Z.
Proof.
  apply (disable_only_after_enable
           (scripted_env example_listing 0 0 1 7)
           (start_args (py "balanced") None None false true false)
           (py "ABC123") false (mkCompleted 1 None None) eq_refl).
  simpl. do 6 right. left. reflexivity.
Defined.
